(** * mongo_chat_llm: the chat service (apk.py) and the embedding job
    (get_embeddings.py), embedded in Rocq.

  The program is glue around three outside services: a document
  database (pymongo), an embedding model and a chat-completion model
  (openai).  The database is modelled by the state it holds; the two
  models are parameters of the development. *)

From Stdlib Require Import List ZArith String Ascii Bool Lia QArith Sorted.
Import ListNotations.

Local Open Scope string_scope.
Local Open Scope Z_scope.
Local Open Scope list_scope.

Local Set Warnings "-register-all".

(* ================================================================== *)
(** * Python: exceptions, results, slices *)
(* ================================================================== *)

Module Py.

(** The exceptions the modelled code can raise. *)
Inductive exn : Type :=
| KeyError (key : string)
| AttributeError
| TypeError
| UpstreamError (msg : string)      (* openai client *)
| OperationFailure (msg : string)   (* pymongo: the server rejects the command *)
| WriteError (msg : string).        (* pymongo: the server rejects the update *)

Inductive result (A : Type) : Type :=
| Ok (a : A)
| Raise (e : exn).

Arguments Ok {A} a.
Arguments Raise {A} e.

Definition bind {A B} (r : result A) (k : A -> result B) : result B :=
  match r with
  | Ok a => k a
  | Raise e => Raise e
  end.

(** [mapM f l]: a comprehension [[f(x) for x in l]] whose body may raise;
    elements are visited left to right and the first exception wins. *)
Fixpoint mapM {A B} (f : A -> result B) (l : list A) : result (list B) :=
  match l with
  | [] => Ok []
  | x :: xs =>
      match f x with
      | Raise e => Raise e
      | Ok y =>
          match mapM f xs with
          | Raise e => Raise e
          | Ok ys => Ok (y :: ys)
          end
      end
  end.

(** [l[start:]] for a Python list: a negative start counts from the end,
    and both ends are clipped to the list. *)
Definition slice_from {A} (start : Z) (l : list A) : list A :=
  let n := Z.of_nat (List.length l) in
  let s := if start <? 0 then Z.max 0 (start + n) else Z.min start n in
  skipn (Z.to_nat s) l.

(** [sep.join(parts)] *)
Fixpoint join (sep : string) (parts : list string) : string :=
  match parts with
  | [] => ""
  | [p] => p
  | p :: ps => (p ++ sep ++ join sep ps)%string
  end.

(** Truth value of a str: [not s] holds exactly for the empty string. *)
Definition truthy_str (s : string) : bool :=
  match s with EmptyString => false | String _ _ => true end.

(** Truth value of [d.get(k)] for a str-valued dict: [None] is falsy. *)
Definition truthy_opt (o : option string) : bool :=
  match o with None => false | Some s => truthy_str s end.

End Py.

Import Py.

Declare Scope py_scope.
Delimit Scope py_scope with py.
Notation "x <- c1 ;; c2" := (Py.bind c1 (fun x => c2))
(at level 61, c1 at next level, right associativity) : py_scope.
Local Open Scope py_scope.

(* ================================================================== *)
(** * Documents *)
(* ================================================================== *)

Module Bson.

(** A stored value.  Doubles are represented by rationals; NaN, which
    pandas introduces for a missing cell, is a value of its own. *)
Inductive value : Type :=
| VNull
| VNaN
| VBool (b : bool)
| VInt (z : Z)
| VFloat (q : Q)
| VStr (s : string)
| VOid (n : N)
| VTime (t : Z)
| VArr (l : list value)
| VDoc (d : list (string * value)).

(** A document (and a Python dict read from one): fields in order. *)
Definition doc : Type := list (string * value).

(** A collection: its documents in natural (insertion) order. *)
Definition collection : Type := list doc.

Fixpoint lookup (k : string) (d : doc) : option value :=
  match d with
  | [] => None
  | (k', v) :: rest => if String.eqb k k' then Some v else lookup k rest
  end.

(** Set field [k]: an existing field is replaced where it stands, a new
    one is added at the end. *)
Fixpoint set_field (k : string) (v : value) (d : doc) : doc :=
  match d with
  | [] => [(k, v)]
  | (k', v') :: rest =>
      if String.eqb k k' then (k, v) :: rest
      else (k', v') :: set_field k v rest
  end.

(** Equality of stored values: same constructor, same content. *)
Fixpoint value_eqb (a b : value) : bool :=
  match a, b with
  | VNull, VNull => true
  | VNaN, VNaN => true
  | VBool x, VBool y => Bool.eqb x y
  | VInt x, VInt y => Z.eqb x y
  | VFloat x, VFloat y =>
      Z.eqb (Qnum x) (Qnum y) && Pos.eqb (Qden x) (Qden y)
  | VStr x, VStr y => String.eqb x y
  | VOid x, VOid y => N.eqb x y
  | VTime x, VTime y => Z.eqb x y
  | VArr l, VArr l' =>
      (fix go (l l' : list value) : bool :=
         match l, l' with
         | [], [] => true
         | x :: xs, y :: ys => value_eqb x y && go xs ys
         | _, _ => false
         end) l l'
  | VDoc d, VDoc d' =>
      (fix go (d d' : list (string * value)) : bool :=
         match d, d' with
         | [], [] => true
         | (k, x) :: xs, (k', y) :: ys =>
             String.eqb k k' && value_eqb x y && go xs ys
         | _, _ => false
         end) d d'
  | _, _ => false
  end.

(** [d.get(k, default)] on a Python value: only a dict has [get]. *)
Definition py_get (v : value) (k : string) (default : value) : result value :=
  match v with
  | VDoc d => Ok (match lookup k d with Some x => x | None => default end)
  | _ => Raise AttributeError
  end.

(** [v[k]] with a str key on a Python value. *)
Definition py_item (v : value) (k : string) : result value :=
  match v with
  | VDoc d =>
      match lookup k d with
      | Some x => Ok x
      | None => Raise (KeyError k)
      end
  | _ => Raise TypeError
  end.

End Bson.

Import Bson.

(* ================================================================== *)
(** * The document database, as pymongo shows it to the program *)
(* ================================================================== *)

Module Mongo.

(** Equality match of a filter [{field: v}] against a top-level field: a
    missing field matches null, and an array field matches when it
    equals [v] or holds an element equal to [v]. *)
Definition matches_eq (field : string) (v : value) (d : doc) : bool :=
  match lookup field d with
  | None => value_eqb v VNull
  | Some (VArr l) => value_eqb v (VArr l) || existsb (value_eqb v) l
  | Some x => value_eqb v x
  end.

(** [collection.find_one({field: v})]: the first match in natural order. *)
Definition find_one (field : string) (v : value) (c : collection) : option doc :=
  find (matches_eq field v) c.

(** Apply [f] to the first document satisfying [p]; [None] when no
    document matches.  A failing [f] leaves the collection as it was. *)
Fixpoint update_first (p : doc -> bool) (f : doc -> result doc) (c : collection)
  : option (result collection) :=
  match c with
  | [] => None
  | d :: rest =>
      if p d then Some (d' <- f d ;; Ok (d' :: rest))
      else
        match update_first p f rest with
        | None => None
        | Some r => Some (rest' <- r ;; Ok (d :: rest'))
        end
  end.

(** [s.split(sep)]: the components of a dotted update path. *)
Fixpoint split_on (sep : ascii) (s : string) : list string :=
  match s with
  | EmptyString => [EmptyString]
  | String a s' =>
      if Ascii.eqb a sep then EmptyString :: split_on sep s'
      else
        match split_on sep s' with
        | [] => [String a EmptyString]
        | h :: t => String a h :: t
        end
  end.

Fixpoint contains (c : ascii) (s : string) : bool :=
  match s with
  | EmptyString => false
  | String a s' => Ascii.eqb a c || contains c s'
  end.

(** The path components this model of [$push] follows: non-empty names
    that hold no NUL and do not start with a dollar sign.  The server
    refuses an empty component; a dollar-prefixed one is a positional
    operator or refused, depending on the server version: the model
    raises on all of them. *)
Definition field_name_ok (k : string) : bool :=
  match k with
  | EmptyString => false
  | String a _ => negb (Ascii.eqb a "$") && negb (contains "000" k)
  end.

(** [{"$push": {path: v}}] on one document.  Missing fields on the way
    are created as embedded documents and a missing last field as a
    one-element array; the last field must be an array.  A step through
    a field that holds neither is refused (the server would follow a
    numeric component into an array element; the model does not). *)
Fixpoint push_at (path : list string) (v : value) (d : doc) : result doc :=
  match path with
  | [] => Raise (WriteError "empty update path")
  | k :: rest =>
      match rest with
      | [] =>
          match lookup k d with
          | None => Ok (set_field k (VArr [v]) d)
          | Some (VArr l) => Ok (set_field k (VArr (l ++ [v])) d)
          | Some _ => Raise (WriteError "the field must be an array")
          end
      | _ :: _ =>
          match lookup k d with
          | None =>
              sub' <- push_at rest v [] ;; Ok (set_field k (VDoc sub') d)
          | Some (VDoc sub) =>
              sub' <- push_at rest v sub ;; Ok (set_field k (VDoc sub') d)
          | Some _ => Raise (WriteError "cannot create field in element")
          end
      end
  end.

(** [collection.update_one({field: key}, {"$push": {path: v}}, upsert)].
    An upsert that matches nothing inserts the filter's document with the
    update applied (the server also gives it an [_id], which no code of
    the service reads and the model leaves out). *)
Definition update_one_push (field : string) (key : value) (path : string)
  (v : value) (upsert : bool) (c : collection) : result collection :=
  let comps := split_on "." path in
  if negb (forallb field_name_ok comps)
  then Raise (WriteError "invalid field name in update path")
  else
    match update_first (matches_eq field key) (push_at comps v) c with
    | Some r => r
    | None =>
        if upsert
        then d <- push_at comps v [(field, key)] ;; Ok (c ++ [d])
        else Ok c
    end.

(** [collection.update_one({field: key}, {"$set": {k: v}})]: the first
    match gets field [k]; nothing happens when nothing matches. *)
Definition update_one_set (field : string) (key : value) (k : string)
  (v : value) (c : collection) : collection :=
  match update_first (matches_eq field key) (fun d => Ok (set_field k v d)) c with
  | Some (Ok c') => c'
  | _ => c
  end.

(** The two aggregation stages the service uses. *)
Inductive stage : Type :=
| VectorSearch (index : string) (queryVector : value) (path : string)
    (exact : bool) (limit : Z)
| Project (fields : list string).

(** A hit of the vector search: a document with its similarity score. *)
Definition hit : Type := (Q * doc)%type.

Fixpoint insert_desc (x : hit) (l : list hit) : list hit :=
  match l with
  | [] => [x]
  | y :: ys =>
      if Qle_bool (fst y) (fst x) then x :: y :: ys
      else y :: insert_desc x ys
  end.

Definition sort_desc (l : list hit) : list hit := fold_right insert_desc [] l.

(** The documents the index holds for [path], scored against the query
    vector.  [sim q v] is the index's similarity, [None] when [v] is not a
    vector the index can hold (such documents are never returned). *)
Definition candidates (sim : value -> value -> option Q) (q : value)
  (path : string) (docs : list doc) : list hit :=
  flat_map
    (fun d =>
       match lookup path d with
       | Some v => match sim q v with Some s => [(s, d)] | None => [] end
       | None => []
       end)
    docs.

(** Exact (exhaustive) nearest-neighbour search: every indexed document
    is scored, the best [limit] are returned, best first. *)
Definition vector_search (sim : value -> value -> option Q) (q : value)
  (path : string) (limit : Z) (docs : list doc) : list hit :=
  firstn (Z.to_nat limit) (sort_desc (candidates sim q path docs)).

(** [{"$project": {f: 1, ...}}]: only the listed fields are kept. *)
Definition project (fields : list string) (d : doc) : doc :=
  filter (fun kv => existsb (String.eqb (fst kv)) fields) d.

Definition run_stage (sim : value -> value -> option Q) (st : stage)
  (docs : list doc) : result (list doc) :=
  match st with
  | VectorSearch _ q path exact limit =>
      if negb exact
      then Raise (OperationFailure "numCandidates is required")
      else if limit <? 1
      then Raise (OperationFailure "limit must be a positive integer")
      else Ok (map snd (vector_search sim q path limit docs))
  | Project fields => Ok (map (project fields) docs)
  end.

Fixpoint run_pipeline (sim : value -> value -> option Q) (p : list stage)
  (docs : list doc) : result (list doc) :=
  match p with
  | [] => Ok docs
  | st :: rest => docs' <- run_stage sim st docs ;; run_pipeline sim rest docs'
  end.

(** [list(collection.aggregate(pipeline))].  [fault] is the failure of
    the round trip to the server, when there is one (connection lost,
    vector index unavailable). *)
Definition aggregate (fault : option exn) (sim : value -> value -> option Q)
  (c : collection) (p : list stage) : result (list doc) :=
  match fault with
  | Some e => Raise e
  | None => run_pipeline sim p c
  end.

End Mongo.

Import Mongo.

(* ================================================================== *)
(** * The outside services *)
(* ================================================================== *)

(** What the program calls and does not define itself. *)
Record services : Type := {
  (** [embedding_handler.generate_embedding(text)] of mongoembedding.py:
      the embedding of the query text, or the client's exception. *)
  handler_generate_embedding : string -> result value;
  (** the similarity the vector index was configured with *)
  similarity : value -> value -> option Q;
  (** the failure of the aggregate round trip, if it fails *)
  search_fault : option exn;
  (** [os.getenv('INDEX_NAME')] *)
  index_name : string;
  (** [client.chat.completions.create(...).choices[0].message.content],
      by system prompt and user message, or the client's exception *)
  complete : string -> string -> result string;
  (** [openai.Embedding.create(...)["data"][0]["embedding"]] of
      get_embeddings.py, or the exception raised on the way *)
  embedding_create : string -> result value;
  (** how an f-string renders a list of documents *)
  py_repr : list doc -> string;
  (** [str(v)] for the values not spelled out in [py_str] *)
  str_other : value -> string
}.

(** [str(v)] *)
Definition py_str (S : services) (v : value) : string :=
  match v with
  | VStr s => s
  | VNull => "None"
  | VNaN => "nan"
  | VBool true => "True"
  | VBool false => "False"
  | _ => str_other S v
  end.

(** The newline character. *)
Definition nl : string := String "010" EmptyString.

(** The double quote character. *)
Definition dq : string := String "034" EmptyString.

(** The fixed instruction block that ends the system prompt: the text of
    the f-string of [generate_answer] after the property context. *)
Definition persona_policy : string :=
  join nl
    ["    You are a Property Recommender chatbot, a professional yet friendly AI assistant:";
     "    ";
     "    **Mission:** Guide the user with property-related inquiries. If interested in buying, ask about location, budget, and property type.";
     "    **Tone:** Friendly and professional, like JARVIS from Iron Man.";
     "    ";
     "    **Response Rules:**";
     "    1. You have all the customer search history in the search history you will ananyse based on his search histoy what kind of property he is interested in. In history, you will get all the things like, place, price, bedrooms, location etc. for the further question and answering";
     "    2. When you start chatting, you will ask multiple questions to user (maximum 6) like:";
     "        i. location: in which location he want to search also the area of location";
     "        ii. budget: what will be the budget of the user,";
     "        iii. bedroom: how many bedroom he need to have ";
     "        iv. amenities: What type of amenities he want nearby like school, college or anything?";
     "        v. Reason: why he is buying this property for .... or for .....";
     "    aftter succesfully gathering all the information about the clinet requirements, you will give the properties are listed in these criteria";
     "    ";
     "    Example Interactions:";
     ("    User: " ++ dq ++ "Hello" ++ dq)%string;
     "    Assistant: Hello, how can I assist you?";
     EmptyString;
     ("    User: " ++ dq ++ "Can you suggest properties in Indore?" ++ dq)%string;
     "    Assistant: Sure, can you specify a preferred area within Indore?";
     "    "].

(* ================================================================== *)
(** * apk.py: the chat service *)
(* ================================================================== *)

(** A computation over the chat-history collection that may raise. *)
Definition St (A : Type) : Type := collection -> result A * collection.

Definition st_ret {A} (a : A) : St A := fun h => (Ok a, h).

Definition st_bind {A B} (m : St A) (k : A -> St B) : St B :=
  fun h =>
    match m h with
    | (Ok a, h') => k a h'
    | (Raise e, h') => (Raise e, h')
    end.

(** A call that only reads the collection. *)
Definition st_read {A} (f : collection -> result A) : St A :=
  fun h => (f h, h).

(** A call that does not touch the collection. *)
Definition st_lift {A} (r : result A) : St A := fun h => (r, h).

(** A write: a refused update leaves the collection as it was. *)
Definition st_write (f : collection -> result collection) : St unit :=
  fun h =>
    match f h with
    | Ok h' => (Ok tt, h')
    | Raise e => (Raise e, h)
    end.

Notation "x <~ c1 ;; c2" := (st_bind c1 (fun x => c2))
  (at level 61, c1 at next level, right associativity) : py_scope.

(** The body of a JSON request: an object with str values. *)
Definition json_object : Type := list (string * string).

(** [data.get(k)] *)
Fixpoint dict_get (data : json_object) (k : string) : option string :=
  match data with
  | [] => None
  | (k', v) :: rest => if String.eqb k k' then Some v else dict_get rest k
  end.

(** The str held by a value that passed the truth test. *)
Definition the_str (o : option string) : string :=
  match o with Some s => s | None => EmptyString end.

(** What a handler returns: [jsonify(body), status]. *)
Record response : Type := jsonify { body : doc; status : Z }.

(** [save_message_to_mongo(session_id, user_content, ai_content, email,
    collection)]; [now] is [datetime.datetime.utcnow()]. *)
Definition save_message_to_mongo (now : Z) (session_id user_content ai_content
  email : string) (collection : collection) : result Bson.collection :=
  let message :=
    [("req", VStr user_content); ("res", VStr ai_content); ("timestamp", VTime now)] in
  update_one_push "email" (VStr email)
    ("history." ++ session_id ++ ".chat")%string (VDoc message) true collection.

(** [record.get("history", {}).get(session_id, {}).get("chat", [])] *)
Definition record_session_chat (record : doc) (session_id : string)
  : result value :=
  history <- py_get (VDoc record) "history" (VDoc []) ;;
  session <- py_get history session_id (VDoc []) ;;
  py_get session "chat" (VArr []).

(** The stored history of a session as [fetch_chat_history] reads it,
    before the slice: the value of its [session_chat] for the record
    found, the empty list when there is none. *)
Definition session_chat (chat_history_collection : collection)
  (email session_id : string) : result value :=
  match find_one "email" (VStr email) chat_history_collection with
  | Some ((_ :: _) as record) => record_session_chat record session_id
  | _ => Ok (VArr [])
  end.

(** [fetch_chat_history(email, session_id, limit=10)].  The slice
    [session_chat[-limit:]] is taken of a list; for any other value under
    [chat] the model raises TypeError (Python would slice a str as text,
    but no writer of this service stores one there). *)
Definition fetch_chat_history (chat_history_collection : collection)
  (email session_id : string) (limit : option Z) : result (list value) :=
  let limit := match limit with Some n => n | None => 10 end in
  match find_one "email" (VStr email) chat_history_collection with
  | Some ((_ :: _) as record) =>
      history <- py_get (VDoc record) "history" (VDoc []) ;;
      session <- py_get history session_id (VDoc []) ;;
      session_chat <- py_get session "chat" (VArr []) ;;
      match session_chat with
      | VArr l => Ok (slice_from (- limit) l)
      | _ => Raise TypeError
      end
  | _ => Ok []
  end.

Section Service.

Variable S : services.
(** the properties collection, [embedding_handler.db[...]] *)
Variable properties : collection.
(** the clock reading taken when a message is saved *)
Variable now : Z.

(** [get_query_results(user_input, limit=5)] *)
Definition get_query_results (user_input : string) (limit : option Z)
  : result (list doc) :=
  let limit := match limit with Some n => n | None => 5 end in
  query_embedding <- handler_generate_embedding S user_input ;;
  let pipeline :=
    [VectorSearch (index_name S) query_embedding "embedding" true limit;
     Project ["_id"; "text"]] in
  aggregate (search_fault S) (similarity S) properties pipeline.

(** One line pair of the memory context:
    [f"User: {msg['req']}\nAssistant: {msg['res']}"]. *)
Definition format_turn (msg : value) : result string :=
  req <- py_item msg "req" ;;
  res <- py_item msg "res" ;;
  Ok ("User: " ++ py_str S req ++ nl ++ "Assistant: " ++ py_str S res)%string.

(** The f-string of [generate_answer]. *)
Definition build_prompt (memory_context : string) (property_context : list doc)
  : string :=
  ("Given the following memory context:" ++ nl ++ memory_context ++ nl ++ nl
   ++ "    And the following property context: " ++ py_repr S property_context
   ++ nl ++ nl ++ persona_policy)%string.

(** [generate_answer(user_input, email, session_id)] *)
Definition generate_answer (user_input email session_id : string) : St string :=
  chat_history <~ st_read (fun h => fetch_chat_history h email session_id None) ;;
  turns <~ st_lift (mapM format_turn chat_history) ;;
  let memory_context := join nl turns in
  property_context <~ st_lift (get_query_results user_input None) ;;
  let prompt := build_prompt memory_context property_context in
  assistant_response <~ st_lift (complete S prompt user_input) ;;
  _ <~ st_write (save_message_to_mongo now session_id user_input
                   assistant_response email) ;;
  st_ret assistant_response.

(** The handler of [POST /chat].  An exception that leaves it is turned
    into a 500 response by the framework. *)
Definition chat (data : json_object) : St response :=
  let session_id := dict_get data "session_id" in
  let email := dict_get data "email" in
  let question := dict_get data "question" in
  if negb (truthy_opt session_id) || negb (truthy_opt email)
     || negb (truthy_opt question)
  then
    st_ret (jsonify
      [("error", VStr "session_id, email, and question are required fields.")]
      400)
  else
    response <~ generate_answer (the_str question) (the_str email)
                  (the_str session_id) ;;
    st_ret (jsonify [("response", VStr response)] 200).

End Service.

(* ================================================================== *)
(** * get_embeddings.py: the embedding synchronization job *)
(* ================================================================== *)

(** What the job does to the outside world, in order. *)
Inductive event : Type :=
| EmbeddingCall (text : string)                (* generate_embedding(text) *)
| UpdateOne (id : value) (embedding : value).  (* collection.update_one(...) *)

Definition is_update (e : event) : bool :=
  match e with UpdateOne _ _ => true | EmbeddingCall _ => false end.

Definition is_call (e : event) : bool :=
  match e with EmbeddingCall _ => true | UpdateOne _ _ => false end.

(** The write operations and the generator calls of a trace. *)
Definition writes (t : list event) : list event := filter is_update t.
Definition calls (t : list event) : list event := filter is_call t.

(** A pandas DataFrame built from a list of dicts: the column labels and
    one labelled row per dict. *)
Record DataFrame : Type := { columns : list string; rows : list doc }.

(** Column labels: the keys of the records in order of first appearance. *)
Definition add_keys (seen : list string) (d : doc) : list string :=
  fold_left
    (fun acc k => if existsb (String.eqb k) acc then acc else acc ++ [k])
    (map fst d) seen.

Definition columns_of (c : collection) : list string := fold_left add_keys c [].

(** The cell of record [d] in column [k]: NaN where the key is missing. *)
Definition cell (k : string) (d : doc) : value :=
  match lookup k d with Some v => v | None => VNaN end.

Definition is_none (v : value) : bool :=
  match v with VNull => true | _ => false end.

Definition is_number (v : value) : bool :=
  match v with VInt _ | VFloat _ => true | _ => false end.

Definition is_datetime (v : value) : bool :=
  match v with VTime _ => true | _ => false end.

(** Values that make pandas keep a column as Python objects. *)
Definition forces_object (v : value) : bool :=
  match v with
  | VStr _ | VArr _ | VDoc _ | VOid _ | VBool _ => true
  | _ => false
  end.

(** Whether [None] survives in a column with these cells: it does in a
    column of nothing but [None] and in a column pandas keeps as objects
    (one holding a str, list, dict, ObjectId or bool, or both numbers and
    datetimes); in a column of numbers and NaN it becomes NaN, and in a
    column of datetimes NaT, shown here as NaN too.  The widening of
    integers to floats in a numeric column is not modelled. *)
Definition keeps_none (cells : list value) : bool :=
  forallb is_none cells
  || existsb forces_object cells
  || (existsb is_number cells && existsb is_datetime cells).

Definition infer (cells : list value) (v : value) : value :=
  if is_none v && negb (keeps_none cells) then VNaN else v.

Definition row_of (c : collection) (cols : list string) (d : doc) : doc :=
  map (fun k => (k, infer (map (cell k) c) (cell k d))) cols.

(** [load_data(collection)]: [pd.DataFrame(list(collection.find()))] *)
Definition load_data (collection : collection) : DataFrame :=
  let cols := columns_of collection in
  {| columns := cols; rows := map (row_of collection cols) collection |}.

(** [df.empty]: no row or no column. *)
Definition df_empty (df : DataFrame) : bool :=
  match columns df, rows df with
  | [], _ => true
  | _, [] => true
  | _, _ => false
  end.

(** [row[k]] on a row of the frame. *)
Definition series_item (row : doc) (k : string) : result value :=
  match lookup k row with
  | Some v => Ok v
  | None => Raise (KeyError k)
  end.

(** [df['embedding'] = cells], for a frame that has the column. *)
Fixpoint assign_column (k : string) (cells : list value) (rows : list doc)
  : list doc :=
  match cells, rows with
  | v :: cells', row :: rows' => set_field k v row :: assign_column k cells' rows'
  | _, _ => rows
  end.

(** [df.apply(f, axis=1)]: [f] on the rows in order, with what each
    call does to the outside; the first exception ends the pass. *)
Fixpoint df_apply (f : doc -> result value * list event) (rows : list doc)
  : result (list value) * list event :=
  match rows with
  | [] => (Ok [], [])
  | row :: rest =>
      match f row with
      | (Raise e, t) => (Raise e, t)
      | (Ok v, t) =>
          match df_apply f rest with
          | (Raise e, t') => (Raise e, t ++ t')
          | (Ok vs, t') => (Ok (v :: vs), t ++ t')
          end
      end
  end.

(** The loop over [df.iterrows()] of both embedding jobs: one
    [update_one] per row, by the row's [_id]. *)
Fixpoint update_rows (rows : list doc) (c : collection) (t : list event)
  : result unit * collection * list event :=
  match rows with
  | [] => (Ok tt, c, t)
  | row :: rest =>
      match series_item row "_id" with
      | Raise e => (Raise e, c, t)
      | Ok id =>
          match series_item row "embedding" with
          | Raise e => (Raise e, c, t)
          | Ok emb =>
              update_rows rest (update_one_set "_id" id "embedding" emb c)
                (t ++ [UpdateOne id emb])
          end
      end
  end.

(** [' '.join(map(str, row.values))] *)
Definition row_text (S : services) (row : doc) : string :=
  join " " (map (py_str S) (map snd row)).

Section EmbeddingJob.

Variable S : services.

(** [generate_embedding(text)] *)
Definition generate_embedding (text : string) : result value :=
  embedding_create S text.

(** The lambda given to [df.apply]: the row's new embedding cell, with
    the generator call it made. *)
Definition embed_row (row : doc) : result value * list event :=
  match series_item row "embedding" with
  | Raise e => (Raise e, [])
  | Ok VNull =>
      (generate_embedding (row_text S row), [EmbeddingCall (row_text S row)])
  | Ok v => (Ok v, [])
  end.

(** [generate_and_save_embeddings(collection_name)], on the collection
    that [get_mongo_collection(collection_name)] denotes (a name the
    database does not know denotes an empty collection).  Returns the
    outcome, the collection afterwards and the trace of the run. *)
Definition generate_and_save_embeddings (collection : collection)
  : result string * Bson.collection * list event :=
  let df := load_data collection in
  if df_empty df then (Ok "No documents found in the collection.", collection, [])
  else
    match df_apply embed_row (rows df) with
    | (Raise e, t) => (Raise e, collection, t)
    | (Ok cells, t) =>
        let rows' := assign_column "embedding" cells (rows df) in
        match update_rows rows' collection t with
        | (Raise e, c', t') => (Raise e, c', t')
        | (Ok _, c', t') =>
            (Ok "Embeddings generated and saved successfully where needed.", c', t')
        end
    end.

End EmbeddingJob.

(* ================================================================== *)
(** * mongoembedding.py: the handler's own embedding job *)
(* ================================================================== *)

(** Truth value of a cell. *)
Definition truthy (v : value) : bool :=
  match v with
  | VNull => false
  | VNaN => true
  | VBool b => b
  | VInt z => negb (z =? 0)
  | VFloat q => negb (Qeq_bool q 0)
  | VStr s => truthy_str s
  | VOid _ | VTime _ => true
  | VArr [] => false
  | VArr (_ :: _) => true
  | VDoc [] => false
  | VDoc (_ :: _) => true
  end.

(** [row.get(k)]: [None] for a label the row does not have. *)
Definition series_get (row : doc) (k : string) : value :=
  match lookup k row with Some v => v | None => VNull end.

(** What a function printed: a message, or a prefix followed by the
    exception it caught. *)
Inductive printed : Type :=
| Printed (msg : string)
| PrintedError (prefix : string) (e : exn).

(** [MongoDBEmbeddings.fetch_data] *)
Definition fetch_data (collection : collection) : DataFrame := load_data collection.

Section HandlerJob.

Variable S : services.

(** The lambda of [embedd_and_update_mongo]. *)
Definition handler_embed_row (row : doc) : result value * list event :=
  if truthy (series_get row "embedding")
  then (series_item row "embedding", [])
  else (handler_generate_embedding S (row_text S row),
        [EmbeddingCall (row_text S row)]).

(** [MongoDBEmbeddings.embedd_and_update_mongo(df)] on the handler's
    collection: what it prints, the collection afterwards and the trace.
    The [try] catches every exception and prints it. *)
Definition embedd_and_update_mongo (df : DataFrame) (collection : collection)
  : printed * Bson.collection * list event :=
  match df_apply handler_embed_row (rows df) with
  | (Raise e, t) => (PrintedError "Error generating embeddings: " e, collection, t)
  | (Ok cells, t) =>
      let rows' := assign_column "embedding" cells (rows df) in
      match update_rows rows' collection t with
      | (Raise e, c', t') => (PrintedError "Error generating embeddings: " e, c', t')
      | (Ok _, c', t') =>
          (Printed "Embeddings generated and updated in MongoDB successfully.",
           c', t')
      end
  end.

End HandlerJob.

(* ================================================================== *)
(** * Predicates used in the statements *)
(* ================================================================== *)

(** A session id that is one component of the update path
    [history.<session_id>.chat]: a field name with no dot in it. *)
Definition plain_key (session_id : string) : bool :=
  field_name_ok session_id && negb (contains "." session_id).

(** Every record of the history collection is keyed by a str [email], as
    the records written by [save_message_to_mongo] are. *)
Definition identity_records (h : collection) : bool :=
  forallb
    (fun d => match lookup "email" d with Some (VStr _) => true | _ => false end)
    h.

(** The record carries an embedding: its [embedding] attribute is a vector. *)
Definition has_embedding (d : doc) : bool :=
  match lookup "embedding" d with Some (VArr _) => true | _ => false end.

(** The embedding attribute is there, and is null or a vector. *)
Definition embedding_known (d : doc) : bool :=
  match lookup "embedding" d with
  | Some (VArr _) | Some VNull => true
  | _ => false
  end.

(** Every record has an [_id] that is neither null nor an array, and the
    [_id]s are pairwise different, as the database enforces. *)
Fixpoint unique_ids (c : collection) : bool :=
  match c with
  | [] => true
  | d :: rest =>
      match lookup "_id" d with
      | None | Some VNull | Some (VArr _) => false
      | Some id =>
          forallb (fun d' => negb (matches_eq "_id" id d')) rest && unique_ids rest
      end
  end.

(** The response to a request that fails validation. *)
Definition bad_request : response :=
  jsonify
    [("error", VStr "session_id, email, and question are required fields.")] 400.

(** The entry that a chat turn appends. *)
Definition entry (question answer : string) (now : Z) : value :=
  VDoc [("req", VStr question); ("res", VStr answer); ("timestamp", VTime now)].


(** Scores in decreasing order. *)
Definition by_score_desc (x y : hit) : Prop := (fst y <= fst x)%Q.

(* ================================================================== *)
(** * apk.py: the handler of POST /embed *)
(* ================================================================== *)

(** A database: the collection each name denotes.  A name the database
    has no collection for denotes an empty one. *)
Definition database : Type := string -> collection.

(** The database with the collection of [name] replaced. *)
Definition db_put (db : database) (name : string) (c : collection) : database :=
  fun n => if String.eqb n name then c else db n.

Fixpoint has_dotdot (s : string) : bool :=
  match s with
  | String a ((String b _) as s') =>
      (Ascii.eqb a "." && Ascii.eqb b ".") || has_dotdot s'
  | _ => false
  end.

Fixpoint last_char (s : string) : option ascii :=
  match s with
  | EmptyString => None
  | String a EmptyString => Some a
  | String _ s' => last_char s'
  end.

(** The names pymongo accepts for a collection: [db[name]] raises
    InvalidName for an empty name, a name with two dots in a row, a dollar
    sign (outside the two system prefixes), a leading or trailing dot, or
    a NUL. *)
Definition valid_collection_name (name : string) : bool :=
  match name with
  | EmptyString => false
  | String first _ =>
      negb (has_dotdot name)
      && (negb (contains "$" name)
          || String.prefix "oplog.$main" name || String.prefix "$cmd" name)
      && negb (Ascii.eqb first ".")
      && negb (match last_char name with
               | Some a => Ascii.eqb a "."
               | None => false
               end)
      && negb (contains "000" name)
  end.

(** [get_mongo_collection(collection_name)]: the collection, [None] when
    pymongo refuses the name. *)
Definition get_mongo_collection (db : database) (collection_name : string)
  : option collection :=
  if valid_collection_name collection_name then Some (db collection_name)
  else None.

(** How a handler call ends: with a response, or with an exception that
    leaves the handler (the framework answers 500). *)
Inductive handled : Type :=
| Responded (r : response)
| Unhandled (e : exn)
| UnhandledInvalidName (name : string).

(** The handler of [POST /embed]:
    [generate_and_save_embeddings(collection_name)] runs on the collection
    the name denotes, and its outcome message is the response. *)
Definition embed_collection (S : services) (data : json_object) (db : database)
  : handled * database * list event :=
  let collection_name := dict_get data "collection_name" in
  if negb (truthy_opt collection_name)
  then (Responded (jsonify [("error", VStr "Collection name is required")] 400),
        db, [])
  else
    match get_mongo_collection db (the_str collection_name) with
    | None => (UnhandledInvalidName (the_str collection_name), db, [])
    | Some c =>
        match generate_and_save_embeddings S c with
        | (Ok result, c', t) =>
            (Responded (jsonify [("message", VStr result)] 200),
             db_put db (the_str collection_name) c', t)
        | (Raise e, c', t) =>
            (Unhandled e, db_put db (the_str collection_name) c', t)
        end
    end.

(* ================================================================== *)
(** * app.py: the console variant of the assistant *)
(* ================================================================== *)

Module App.

(** Text read from a file opened in text mode: a carriage return, alone
    or before a line feed, is read as one line feed.  [after_cr] tells
    that the character before was a carriage return. *)
Fixpoint universal_newlines (after_cr : bool) (s : string) : string :=
  match s with
  | EmptyString => EmptyString
  | String a s' =>
      if Ascii.eqb a "013" then String "010" (universal_newlines true s')
      else if Ascii.eqb a "010" then
        if after_cr then universal_newlines false s'
        else String "010" (universal_newlines false s')
      else String a (universal_newlines false s')
  end.

(** The lines of a text, each with its line feed; [cur] is the line read
    so far.  A last line without line feed is a line too. *)
Fixpoint split_lines (cur : string) (s : string) : list string :=
  match s with
  | EmptyString =>
      match cur with EmptyString => [] | _ => [cur] end
  | String a s' =>
      if Ascii.eqb a "010"
      then (cur ++ String "010" EmptyString)%string :: split_lines EmptyString s'
      else split_lines (cur ++ String a EmptyString)%string s'
  end.

(** [f.readlines()] *)
Definition readlines (content : string) : list string :=
  split_lines EmptyString (universal_newlines false content).

(** ["".join(lines)] *)
Definition concat_lines (lines : list string) : string :=
  fold_right String.append EmptyString lines.

(** The memory file [chat_memory.txt]: its content, [None] while the file
    does not exist. *)
Definition memory : Type := option string.

(** [update_memory(user_input, assistant_response)]: two lines appended
    to the file, which is created when it is missing. *)
Definition update_memory (user_input assistant_response : string) (m : memory)
  : memory :=
  let content := match m with Some c => c | None => EmptyString end in
  Some (content ++ ("User: " ++ user_input ++ nl)
        ++ ("Assistant: " ++ assistant_response ++ nl))%string.

(** [fetch_memory_context()]: the last ten lines of the file. *)
Definition fetch_memory_context (m : memory) : string :=
  match m with
  | Some content => concat_lines (slice_from (- 10) (readlines content))
  | None => EmptyString
  end.

(** The object that [collection.aggregate] returns, with the address the
    interpreter gave it. *)
Inductive cursor : Type := CommandCursor (address : string) (docs : list doc).

(** How an f-string renders the cursor: the default rendering of an
    object, which shows its class and address and not what it holds. *)
Definition cursor_str (c : cursor) : string :=
  match c with
  | CommandCursor address _ =>
      ("<pymongo.command_cursor.CommandCursor object at " ++ address ++ ">")%string
  end.

(** The instruction block that ends the console's system prompt. *)
Definition persona_policy : string :=
  join nl
    ["    You are Property Recommender chatbot, an advanced AI system with the following responsibilities:";
     "    ";
     "    **Mission:** Assist the user by answering property-related inquiries. If the user expresses interest in buying, guide them by asking location, budget, and property type.";
     EmptyString;
     "    **Tone:** Professional yet friendly, similar to JARVIS from Iron Man.";
     EmptyString;
     "    **Response Rules:**";
     "    1. Engage in natural conversation, responding to casual questions.";
     "    2. For property inquiries, ask up to 5 questions on details like location, budget, area, and type.";
     "    ";
     "    Example Interactions:";
     ("    User: " ++ dq ++ "Hello" ++ dq)%string;
     "    Assistant: Hello, how can I assist you?";
     EmptyString;
     ("    User: " ++ dq ++ "Can you suggest properties in Indore?" ++ dq)%string;
     "    Assistant: Sure, can you specify a preferred area within Indore?";
     "    "].

(** What the console shows and keeps: the memory file and the text
    written to the terminal. *)
Record console : Type := { memory_file : memory; stdout : list string }.

Section Console.

Variable S : services.
Variable properties : collection.
(** the address of the cursor object of a call *)
Variable address : string.

(** [get_query_results(user_input, limit=5)]: the cursor itself is
    returned, not the list of its documents. *)
Definition get_query_results (user_input : string) (limit : option Z)
  : result cursor :=
  let limit := match limit with Some n => n | None => 5 end in
  query_embedding <- handler_generate_embedding S user_input ;;
  let pipeline :=
    [VectorSearch (index_name S) query_embedding "embedding" true limit;
     Project ["_id"; "text"]] in
  results <- aggregate (search_fault S) (similarity S) properties pipeline ;;
  Ok (CommandCursor address results).

(** The f-string of [generate_answer]. *)
Definition build_prompt (memory_context : string) (context : cursor) : string :=
  ("Given the following memory context:" ++ nl ++ memory_context ++ nl ++ nl
   ++ "    And the following property context: " ++ cursor_str context
   ++ nl ++ nl ++ persona_policy)%string.

(** [generate_answer(user_input)]: the reply is printed and the exchange
    appended to the memory file. *)
Definition generate_answer (user_input : string) (st : console)
  : result unit * console :=
  let memory_context := fetch_memory_context (memory_file st) in
  match get_query_results user_input None with
  | Raise e => (Raise e, st)
  | Ok context =>
      let prompt := build_prompt memory_context context in
      match complete S prompt user_input with
      | Raise e => (Raise e, st)
      | Ok assistant_response =>
          (Ok tt,
           {| memory_file :=
                update_memory user_input assistant_response (memory_file st);
              stdout := stdout st ++ [(assistant_response ++ nl)%string] |})
      end
  end.

(** [c.lower()] on an ASCII letter. *)
Definition lower_ascii (a : ascii) : ascii :=
  let n := nat_of_ascii a in
  if (Nat.leb 65 n && Nat.leb n 90)%bool then ascii_of_nat (n + 32) else a.

(** [s.lower()], on the ASCII letters of [s]. *)
Fixpoint lower (s : string) : string :=
  match s with
  | EmptyString => EmptyString
  | String a s' => String (lower_ascii a) (lower s')
  end.

(** How the loop of the console ends. *)
Inductive loop_end : Type :=
| Exited                 (* the user typed exit *)
| InputClosed            (* input() raised EOFError *)
| Failed (e : exn).      (* generate_answer raised *)

(** The loop under [__main__], on the lines the user types: each line is
    asked for with the prompt [User: ]; the word exit, in any case, ends
    the loop. *)
Fixpoint main (inputs : list string) (st : console) : loop_end * console :=
  let asked := {| memory_file := memory_file st;
                  stdout := stdout st ++ ["User: "] |} in
  match inputs with
  | [] => (InputClosed, asked)
  | user_input :: rest =>
      if String.eqb (lower user_input) "exit"
      then (Exited,
            {| memory_file := memory_file asked;
               stdout := stdout asked ++ [("Exiting..." ++ nl)%string] |})
      else
        match generate_answer user_input asked with
        | (Raise e, st') => (Failed e, st')
        | (Ok _, st') => main rest st'
        end
  end.

End Console.

End App.

(** How often a character stands in a text. *)
Fixpoint count_char (c : ascii) (s : string) : nat :=
  match s with
  | EmptyString => 0
  | String a s' => (if Ascii.eqb a c then 1 else 0) + count_char c s'
  end.

(* ================================================================== *)
(** * Sample services, requests and collections *)
(* ================================================================== *)

(** The dot product of two vectors of floats, as a similarity. *)
Fixpoint dot (a b : list value) : option Q :=
  match a, b with
  | [], [] => Some 0%Q
  | VFloat x :: a', VFloat y :: b' =>
      match dot a' b' with
      | Some s => Some (x * y + s)%Q
      | None => None
      end
  | _, _ => None
  end.

Definition dot_product (q v : value) : option Q :=
  match q, v with
  | VArr a, VArr b => dot a b
  | _, _ => None
  end.

(** Services that all answer. *)
Definition demo_services : services :=
  {| handler_generate_embedding := fun _ => Ok (VArr [VFloat 1%Q; VFloat 0%Q]);
     similarity := dot_product;
     search_fault := None;
     index_name := "vector_index";
     complete := fun _ _ => Ok "Hello, how can I assist you?";
     embedding_create := fun _ => Ok (VArr [VFloat (1 # 2); VFloat (1 # 2)]);
     py_repr := fun _ => "[...]";
     str_other := fun _ => "..." |}.

(** The same services with a completion endpoint that fails. *)
Definition completion_down : services :=
  {| handler_generate_embedding := handler_generate_embedding demo_services;
     similarity := dot_product;
     search_fault := None;
     index_name := "vector_index";
     complete := fun _ _ => Raise (UpstreamError "completion endpoint unavailable");
     embedding_create := embedding_create demo_services;
     py_repr := py_repr demo_services;
     str_other := str_other demo_services |}.

(** The same services with an embedding endpoint that fails on every text. *)
Definition embedding_down : services :=
  {| handler_generate_embedding := fun _ => Raise (UpstreamError "embedding endpoint unavailable");
     similarity := dot_product;
     search_fault := None;
     index_name := "vector_index";
     complete := complete demo_services;
     embedding_create := fun _ => Raise (UpstreamError "embedding endpoint unavailable");
     py_repr := py_repr demo_services;
     str_other := str_other demo_services |}.

(** The request of the spec's example scenario. *)
Definition hello_request : json_object :=
  [("session_id", "s1"); ("email", "a@b.com"); ("question", "Hello")].

(** A request without a session id. *)
Definition no_session_request : json_object :=
  [("email", "a@b.com"); ("question", "Hello")].

(** A request whose session id holds a dot. *)
Definition dotted_request : json_object :=
  [("session_id", "v1.2"); ("email", "a@b.com"); ("question", "Hello")].

Definition turn (req res : string) (t : Z) : value :=
  VDoc [("req", VStr req); ("res", VStr res); ("timestamp", VTime t)].

(** Three turns of a conversation. *)
Definition three_entries : list value :=
  [turn "Hello" "Hello, how can I assist you?" 1;
   turn "Any 2BHK in Indore?" "Which area?" 2;
   turn "Vijay Nagar" "What is your budget?" 3].

(** A history collection with one identity record, whose session [s1]
    holds these three turns. *)
Definition three_turns : collection :=
  [[("email", VStr "a@b.com");
    ("history", VDoc [("s1", VDoc [("chat", VArr three_entries)])])]].

Definition listing (id : N) (text : string) (emb : list Q) : doc :=
  [("_id", VOid id); ("text", VStr text); ("embedding", VArr (map VFloat emb))].

(** Three listings that all carry an embedding. *)
Definition embedded_listings : collection :=
  [listing 1 "2BHK in Vijay Nagar" [1; 0]%Q;
   listing 2 "3BHK in Palasia" [1 # 2; 1 # 2]%Q;
   listing 3 "Plot in Rau" [0; 1]%Q].

(** A listing without the embedding attribute. *)
Definition bare_listing (id : N) (text : string) : doc :=
  [("_id", VOid id); ("text", VStr text)].

(** A listing whose embedding attribute is null. *)
Definition null_listing (id : N) (text : string) : doc :=
  [("_id", VOid id); ("text", VStr text); ("embedding", VNull)].

(** A freshly imported collection: no record has the attribute. *)
Definition fresh_listings : collection :=
  [bare_listing 1 "2BHK in Vijay Nagar"; bare_listing 2 "3BHK in Palasia"].

(** An embedded listing followed by a newly imported one. *)
Definition mixed_listings : collection :=
  [listing 1 "2BHK in Vijay Nagar" [1; 0]%Q; bare_listing 2 "3BHK in Palasia"].

(** An embedded listing and one whose embedding is null. *)
Definition pending_listings : collection :=
  [listing 1 "2BHK in Vijay Nagar" [1; 0]%Q; null_listing 2 "3BHK in Palasia"].

(** A record whose embedding is null beside one that lacks the attribute. *)
Definition null_and_bare_listings : collection :=
  [null_listing 1 "2BHK in Vijay Nagar"; bare_listing 2 "3BHK in Palasia"].

(** The row of the frame of [pending_listings] for its second record. *)
Definition pending_row : doc :=
  [("_id", VOid 2); ("text", VStr "3BHK in Palasia"); ("embedding", VNull)].

(* ================================================================== *)
(** * More sample inputs *)
(* ================================================================== *)

(** A request whose question is empty. *)
Definition empty_question_request : json_object :=
  [("session_id", "s1"); ("email", "a@b.com"); ("question", EmptyString)].

(** A history collection of two users. *)
Definition two_users : collection :=
  three_turns
  ++ [[("email", VStr "c@d.com");
       ("history",
        VDoc [("s9", VDoc [("chat", VArr [turn "Plots in Rau?" "What size?" 4])])])]].

(** Ten turns of a conversation. *)
Definition ten_entries : list value :=
  repeat (turn "Any 2BHK in Indore?" "Which area?" 5) 10.

(** A session that holds the ten turns, and one that holds three older
    turns before them. *)
Definition ten_turns : collection :=
  [[("email", VStr "a@b.com");
    ("history", VDoc [("s1", VDoc [("chat", VArr ten_entries)])])]].

Definition thirteen_turns : collection :=
  [[("email", VStr "a@b.com");
    ("history",
     VDoc [("s1", VDoc [("chat", VArr (three_entries ++ ten_entries))])])]].

(** The row of the frame of [fresh_listings] for its first record. *)
Definition fresh_row : doc :=
  [("_id", VOid 1); ("text", VStr "2BHK in Vijay Nagar")].

(** A database whose collection [properties] holds the fresh listings. *)
Definition sample_db : database :=
  fun name => if String.eqb name "properties" then fresh_listings else [].

(** Requests to /embed. *)
Definition embed_nothing_request : json_object := [].

Definition embed_archive_request : json_object :=
  [("collection_name", "archive")].

Definition embed_properties_request : json_object :=
  [("collection_name", "properties")].

(** A console that has not run yet. *)
Definition new_console : App.console :=
  {| App.memory_file := None; App.stdout := [] |}.

(* ================================================================== *)
(** * Facts about documents, slices and paths *)
(* ================================================================== *)

Lemma lookup_set_field_same (k : string) (v : value) (d : doc) :
  lookup k (set_field k v d) = Some v.
Proof.
  induction d as [|[k' v'] d IH]; simpl.
  - now rewrite String.eqb_refl.
  - destruct (String.eqb k k') eqn:E; simpl.
    + now rewrite String.eqb_refl.
    + now rewrite E.
Qed.

Lemma lookup_set_field_other (k k' : string) (v : value) (d : doc) :
  k' <> k -> lookup k' (set_field k v d) = lookup k' d.
Proof.
  intros Hne.
  induction d as [|[k0 v0] d IH]; simpl.
  - destruct (String.eqb k' k) eqn:E; [|reflexivity].
    apply String.eqb_eq in E. contradiction.
  - destruct (String.eqb k k0) eqn:E; simpl.
    + apply String.eqb_eq in E; subst k0.
      destruct (String.eqb k' k) eqn:E'; [|reflexivity].
      apply String.eqb_eq in E'. contradiction.
    + now rewrite IH.
Qed.

Lemma set_field_same (k : string) (v : value) (d : doc) :
  lookup k d = Some v -> set_field k v d = d.
Proof.
  induction d as [|[k' v'] d IH]; simpl; [discriminate|].
  destruct (String.eqb k k') eqn:E.
  - intros [= ->]. apply String.eqb_eq in E. now subst.
  - intros H. now rewrite IH.
Qed.

Lemma slice_from_nil {A} (start : Z) : slice_from start (@nil A) = [].
Proof. unfold slice_from. apply skipn_nil. Qed.

(** [l[-n:]] for a positive [n]: the last [n] elements, all of them when
    there are fewer. *)
Lemma slice_last_positive {A} (n : Z) (l : list A) :
  0 < n ->
  slice_from (- n) l = skipn (List.length l - Z.to_nat n) l.
Proof.
  intros Hn. unfold slice_from.
  assert (E : (- n <? 0) = true) by (apply Z.ltb_lt; lia).
  rewrite E. f_equal. lia.
Qed.

(** [l[-0:]] is [l[0:]]: the whole list. *)
Lemma slice_last_zero {A} (l : list A) : slice_from (- 0) l = l.
Proof.
  unfold slice_from. simpl. destruct (List.length l); reflexivity.
Qed.

Lemma split_on_no_sep (sep : ascii) (s : string) :
  contains sep s = false -> split_on sep s = [s].
Proof.
  induction s as [|a s IH]; simpl; [reflexivity|].
  intros H. apply orb_false_iff in H as [Ha Hs].
  rewrite Ha, (IH Hs). reflexivity.
Qed.

Lemma split_on_append (sep : ascii) (s t : string) :
  contains sep s = false ->
  split_on sep (s ++ String sep t) = s :: split_on sep t.
Proof.
  induction s as [|a s IH]; simpl; intros H.
  - now rewrite Ascii.eqb_refl.
  - apply orb_false_iff in H as [Ha Hs].
    rewrite Ha, (IH Hs). reflexivity.
Qed.

Lemma history_path_components (session_id : string) :
  plain_key session_id = true ->
  split_on "." ("history." ++ session_id ++ ".chat")
  = ["history"; session_id; "chat"].
Proof.
  intros H. apply andb_true_iff in H as [_ H].
  apply negb_true_iff in H.
  change ("history." ++ session_id ++ ".chat")%string
    with ("history" ++ String "." (session_id ++ String "." "chat"))%string.
  rewrite split_on_append by reflexivity.
  rewrite split_on_append by assumption.
  reflexivity.
Qed.

(* ================================================================== *)
(** * fetch_chat_history *)
(* ================================================================== *)

Lemma find_one_none (field : string) (v : value) (c : collection) :
  (forall d, In d c -> matches_eq field v d = false) ->
  find_one field v c = None.
Proof.
  unfold find_one. induction c as [|d c IH]; simpl; intros H; [reflexivity|].
  rewrite (H d (or_introl eq_refl)). apply IH. intros d' Hd. apply H. now right.
Qed.

(** C8. An email that matches no record of the history collection has an
    empty history: [fetch_chat_history] returns the empty list, it does
    not raise, whatever the session id and the limit. *)
Theorem fetch_chat_history_unknown_email
  (h : collection) (email session_id : string) (limit : option Z) :
  (forall d, In d h -> matches_eq "email" (VStr email) d = false) ->
  fetch_chat_history h email session_id limit = Ok [].
Proof.
  intros H. unfold fetch_chat_history.
  now rewrite (find_one_none _ _ _ H).
Qed.

(** [fetch_chat_history] is the slice of what [session_chat] reads. *)
Lemma fetch_chat_history_session_chat
  (h : collection) (email session_id : string) (limit : option Z) (l : list value) :
  session_chat h email session_id = Ok (VArr l) ->
  fetch_chat_history h email session_id limit
  = Ok (slice_from (- match limit with Some n => n | None => 10 end) l).
Proof.
  unfold session_chat, record_session_chat, fetch_chat_history.
  destruct (find_one "email" (VStr email) h) as [[|f record]|].
  - intros [= <-]. now rewrite slice_from_nil.
  - destruct (py_get (VDoc (f :: record)) "history" (VDoc [])) as [hist|]; simpl;
      [|discriminate].
    destruct (py_get hist session_id (VDoc [])) as [sess|]; simpl; [|discriminate].
    destruct (py_get sess "chat" (VArr [])) as [c|]; simpl; [|discriminate].
    now intros [= ->].
  - intros [= <-]. now rewrite slice_from_nil.
Qed.

(** X1. With a positive limit the result is the tail of the stored history:
    at most [limit] entries, the most recent ones, oldest first. *)
Lemma fetch_chat_history_positive_limit
  (h : collection) (email session_id : string) (limit : Z) (l : list value) :
  0 < limit ->
  session_chat h email session_id = Ok (VArr l) ->
  exists older recent,
    fetch_chat_history h email session_id (Some limit) = Ok recent
    /\ l = older ++ recent
    /\ Z.of_nat (List.length recent) = Z.min limit (Z.of_nat (List.length l)).
Proof.
  intros Hpos Hs.
  rewrite (fetch_chat_history_session_chat _ _ _ (Some limit) _ Hs).
  rewrite slice_last_positive by assumption.
  exists (firstn (List.length l - Z.to_nat limit) l),
         (skipn (List.length l - Z.to_nat limit) l).
  split; [reflexivity|]. split.
  - symmetry. apply firstn_skipn.
  - rewrite length_skipn. lia.
Qed.

(** C3, at limit 0.  The slice [session_chat[-0:]] is the whole list: with
    a stored history of three turns, [fetch_chat_history] with limit 0
    returns all three, where "the last 0 messages" are none. *)
Theorem fetch_chat_history_limit_zero :
  exists entries,
    fetch_chat_history three_turns "a@b.com" "s1" (Some 0) = Ok entries
    /\ List.length entries = 3%nat.
Proof.
  eexists. split; reflexivity.
Qed.

(** The same on any stored history: limit 0 returns every entry. *)
Lemma fetch_chat_history_limit_zero_all
  (h : collection) (email session_id : string) (l : list value) :
  session_chat h email session_id = Ok (VArr l) ->
  fetch_chat_history h email session_id (Some 0) = Ok l.
Proof.
  intros Hs.
  rewrite (fetch_chat_history_session_chat _ _ _ (Some 0) _ Hs).
  now rewrite slice_last_zero.
Qed.


(** [value_eqb] decides equality of stored values. *)
Lemma value_eqb_refl : forall v : value, value_eqb v v = true.
Proof.
  fix IH 1. intros [| |b|z|q|s|n|t|l|d]; simpl; try reflexivity.
  - apply Bool.eqb_reflx.
  - apply Z.eqb_refl.
  - now rewrite Z.eqb_refl, Pos.eqb_refl.
  - apply String.eqb_refl.
  - apply N.eqb_refl.
  - apply Z.eqb_refl.
  - induction l as [|x xs IHl]; [reflexivity|].
    now rewrite (IH x), IHl.
  - induction d as [|[k x] xs IHd]; [reflexivity|].
    now rewrite String.eqb_refl, (IH x), IHd.
Qed.

Lemma value_eqb_true : forall a b : value, value_eqb a b = true -> a = b.
Proof.
  fix IH 1.
  intros [| |b|z|q|s|n|t|l|d] [| |b'|z'|q'|s'|n'|t'|l'|d']; simpl;
    try discriminate; try reflexivity; intros H.
  - apply Bool.eqb_prop in H. now subst.
  - apply Z.eqb_eq in H. now subst.
  - apply andb_true_iff in H as [H1 H2].
    apply Z.eqb_eq in H1. apply Pos.eqb_eq in H2.
    destruct q, q'. simpl in *. now subst.
  - apply String.eqb_eq in H. now subst.
  - apply N.eqb_eq in H. now subst.
  - apply Z.eqb_eq in H. now subst.
  - f_equal. revert l' H.
    induction l as [|x xs IHl]; intros [|y ys] H; try discriminate; [reflexivity|].
    apply andb_true_iff in H as [H1 H2].
    now rewrite (IH x y H1), (IHl ys H2).
  - f_equal. revert d' H.
    induction d as [|[k x] xs IHd]; intros [|[k' y] ys] H; try discriminate;
      [reflexivity|].
    apply andb_true_iff in H as [H12 H3].
    apply andb_true_iff in H12 as [H1 H2].
    apply String.eqb_eq in H1. subst k'.
    now rewrite (IH x y H2), (IHd ys H3).
Qed.

Lemma value_eqb_sym (a b : value) : value_eqb a b = value_eqb b a.
Proof.
  destruct (value_eqb a b) eqn:E.
  - apply value_eqb_true in E. subst. symmetry. apply value_eqb_refl.
  - destruct (value_eqb b a) eqn:E'; [|reflexivity].
    apply value_eqb_true in E'. subst. now rewrite value_eqb_refl in E.
Qed.

(* ================================================================== *)
(** * Updates of one document in a collection *)
(* ================================================================== *)

Lemma find_app {A} (p : A -> bool) (l1 l2 : list A) :
  find p (l1 ++ l2) = match find p l1 with Some x => Some x | None => find p l2 end.
Proof.
  induction l1 as [|x l1 IH]; simpl; [reflexivity|].
  now destruct (p x).
Qed.

(** When nothing matches, [update_first] reports it. *)
Lemma update_first_none (p : doc -> bool) (f : doc -> result doc) (c : collection) :
  find p c = None -> update_first p f c = None.
Proof.
  induction c as [|d c IH]; simpl; [reflexivity|].
  destruct (p d); [discriminate|]. intros H. now rewrite IH.
Qed.

(** When a document matches, the first match is the one updated, where it
    stands. *)
Lemma update_first_found (p : doc -> bool) (f : doc -> result doc)
  (c : collection) (d d' : doc) :
  find p c = Some d -> f d = Ok d' ->
  exists c1 c2,
    c = c1 ++ d :: c2
    /\ find p c1 = None
    /\ update_first p f c = Some (Ok (c1 ++ d' :: c2)).
Proof.
  induction c as [|x c IH]; simpl; [discriminate|].
  destruct (p x) eqn:Px.
  - intros [= ->] Hf. exists [], c. simpl. now rewrite Hf.
  - intros Hfind Hf. destruct (IH Hfind Hf) as (c1 & c2 & -> & Hn & Hu).
    exists (x :: c1), c2. simpl. now rewrite Px, Hu.
Qed.

(** A failing update of the first match fails the whole update. *)
Lemma update_first_refused (p : doc -> bool) (f : doc -> result doc)
  (c : collection) (d : doc) (e : exn) :
  find p c = Some d -> f d = Raise e -> update_first p f c = Some (Raise e).
Proof.
  induction c as [|x c IH]; simpl; [discriminate|].
  destruct (p x) eqn:Px.
  - intros [= ->] Hf. now rewrite Hf.
  - intros Hfind Hf. now rewrite (IH Hfind Hf).
Qed.

Lemma matches_eq_str (field s s' : string) (d : doc) :
  lookup field d = Some (VStr s') ->
  matches_eq field (VStr s) d = String.eqb s s'.
Proof.
  intros H. unfold matches_eq. now rewrite H.
Qed.

(** In a collection of identity records, the record found for an email
    holds that email. *)
Lemma find_one_email (h : collection) (email : string) (d : doc) :
  identity_records h = true ->
  find_one "email" (VStr email) h = Some d ->
  lookup "email" d = Some (VStr email).
Proof.
  unfold identity_records, find_one. intros Hid Hfind.
  destruct (find_some _ _ Hfind) as [Hin Hm].
  rewrite forallb_forall in Hid. specialize (Hid d Hin).
  destruct (lookup "email" d) as [[]|] eqn:E; try discriminate.
  rewrite (matches_eq_str _ email _ _ E) in Hm.
  apply String.eqb_eq in Hm. now subst.
Qed.

(* ------------------------------------------------------------------ *)
(** ** The push of one entry into one record *)

(** On a record whose session can be read, the push to
    [history.<session_id>.chat] succeeds, appends the entry to that
    session, and leaves the other sessions and the email as they were. *)
Lemma push_entry_record (d : doc) (session_id : string) (m : value)
  (old : list value) :
  record_session_chat d session_id = Ok (VArr old) ->
  exists d',
    push_at ["history"; session_id; "chat"] m d = Ok d'
    /\ record_session_chat d' session_id = Ok (VArr (old ++ [m]))
    /\ (forall s', s' <> session_id ->
          record_session_chat d' s' = record_session_chat d s')
    /\ lookup "email" d' = lookup "email" d.
Proof.
  unfold record_session_chat. simpl.
  destruct (lookup "history" d) as [hv|] eqn:Eh.
  - (* the record has a history *)
    destruct hv as [| | | | | | | | |hist]; simpl; try discriminate.
    destruct (lookup session_id hist) as [sv|] eqn:Es.
    + destruct sv as [| | | | | | | | |sess]; simpl; try discriminate.
      destruct (lookup "chat" sess) as [cv|] eqn:Ec.
      * destruct cv as [| | | | | | | |l|]; try discriminate.
        intros [= ->]. simpl.
        eexists. split; [reflexivity|].
        rewrite lookup_set_field_same. simpl.
        rewrite lookup_set_field_same. simpl.
        rewrite lookup_set_field_same.
        split; [reflexivity|]. split.
        -- intros s' Hs'. now rewrite lookup_set_field_other.
        -- now apply lookup_set_field_other.
      * intros [= <-]. simpl.
        eexists. split; [reflexivity|].
        rewrite lookup_set_field_same. simpl.
        rewrite lookup_set_field_same. simpl.
        rewrite lookup_set_field_same.
        split; [reflexivity|]. split.
        -- intros s' Hs'. now rewrite lookup_set_field_other.
        -- now apply lookup_set_field_other.
    + simpl. intros [= <-].
      eexists. split; [reflexivity|].
      rewrite lookup_set_field_same. simpl.
      rewrite lookup_set_field_same. simpl.
      split; [reflexivity|]. split.
      * intros s' Hs'. now rewrite lookup_set_field_other.
      * now apply lookup_set_field_other.
  - (* the record has no history yet *)
    simpl. intros [= <-].
    eexists. split; [reflexivity|].
    rewrite lookup_set_field_same. simpl.
    rewrite String.eqb_refl. simpl.
    split; [reflexivity|]. split.
    + intros s' Hs'.
      destruct (String.eqb s' session_id) eqn:E; [|reflexivity].
      apply String.eqb_eq in E. contradiction.
    + now apply lookup_set_field_other.
Qed.

(* ------------------------------------------------------------------ *)
(** ** The history collection after one saved message *)

Lemma session_chat_found (h : collection) (email session_id : string)
  (d : doc) (v : value) :
  find_one "email" (VStr email) h = Some d ->
  lookup "email" d = Some v ->
  session_chat h email session_id = record_session_chat d session_id.
Proof.
  intros Hf Hl. unfold session_chat. rewrite Hf.
  destruct d; [discriminate|reflexivity].
Qed.

Lemma session_chat_not_found (h : collection) (email session_id : string) :
  find_one "email" (VStr email) h = None ->
  session_chat h email session_id = Ok (VArr []).
Proof.
  intros Hf. unfold session_chat. now rewrite Hf.
Qed.

Lemma matches_eq_same_field (field : string) (v : value) (d d' : doc) :
  lookup field d' = lookup field d ->
  matches_eq field v d' = matches_eq field v d.
Proof.
  intros H. unfold matches_eq. now rewrite H.
Qed.

Lemma identity_records_app (h1 h2 : collection) :
  identity_records (h1 ++ h2) = identity_records h1 && identity_records h2.
Proof.
  unfold identity_records. apply forallb_app.
Qed.

Lemma history_path_ok (session_id : string) :
  plain_key session_id = true ->
  forallb field_name_ok ["history"; session_id; "chat"] = true.
Proof.
  intros H. apply andb_true_iff in H as [H _]. simpl forallb.
  rewrite H. reflexivity.
Qed.

(** Saving a message into a session that can be read succeeds: the entry
    is appended to that session of that email, every other session reads
    as before, and the collection still consists of identity records. *)
Lemma save_message_appends (h : collection) (now : Z)
  (session_id question answer email : string) (old : list value) :
  plain_key session_id = true ->
  identity_records h = true ->
  session_chat h email session_id = Ok (VArr old) ->
  exists h',
    save_message_to_mongo now session_id question answer email h = Ok h'
    /\ session_chat h' email session_id
       = Ok (VArr (old ++ [entry question answer now]))
    /\ (forall e' s', e' <> email \/ s' <> session_id ->
          session_chat h' e' s' = session_chat h e' s')
    /\ identity_records h' = true.
Proof.
  intros Hkey Hid Hold.
  unfold save_message_to_mongo, update_one_push.
  rewrite (history_path_components _ Hkey), (history_path_ok _ Hkey).
  cbv beta iota zeta. change (negb true) with false. cbv iota.
  fold (entry question answer now).
  destruct (find_one "email" (VStr email) h) as [d|] eqn:Hfind.
  - (* the email has a record: it is updated where it stands *)
    pose proof (find_one_email _ _ _ Hid Hfind) as Hemail.
    rewrite (session_chat_found _ _ session_id _ _ Hfind Hemail) in Hold.
    destruct (push_entry_record _ _ (entry question answer now) _ Hold)
      as (d' & Hpush & Hnew & Hothers & Hmail).
    destruct (update_first_found _ _ _ _ _ Hfind Hpush)
      as (c1 & c2 & Hh & Hc1 & Hupd).
    rewrite Hupd. exists (c1 ++ d' :: c2).
    rewrite Hemail in Hmail.
    assert (Hfind' : find_one "email" (VStr email) (c1 ++ d' :: c2) = Some d').
    { unfold find_one in *. rewrite find_app, Hc1. simpl.
      rewrite (matches_eq_str _ email _ _ Hmail), String.eqb_refl. reflexivity. }
    split; [reflexivity|]. split; [|split].
    + now rewrite (session_chat_found _ _ session_id _ _ Hfind' Hmail).
    + intros e' s' Hne.
      destruct (String.eqb e' email) eqn:Ee.
      * apply String.eqb_eq in Ee. subst e'.
        destruct Hne as [Hne|Hne]; [contradiction|].
        rewrite (session_chat_found _ _ s' _ _ Hfind' Hmail).
        rewrite (session_chat_found _ _ s' _ _ Hfind Hemail).
        now apply Hothers.
      * unfold session_chat, find_one. rewrite Hh, !find_app. simpl.
        rewrite (matches_eq_str _ e' _ _ Hmail), (matches_eq_str _ e' _ _ Hemail).
        rewrite Ee. reflexivity.
    + rewrite Hh in Hid. rewrite identity_records_app in *.
      apply andb_true_iff in Hid as [H1 H2]. rewrite H1. simpl in *.
      rewrite Hmail. rewrite Hemail in H2. exact H2.
  - (* no record yet: the upsert inserts one at the end *)
    rewrite (session_chat_not_found _ _ session_id Hfind) in Hold.
    injection Hold as <-.
    unfold find_one in Hfind. rewrite (update_first_none _ _ _ Hfind).
    assert (Hfresh : record_session_chat [("email", VStr email)] session_id
                     = Ok (VArr [])) by reflexivity.
    destruct (push_entry_record _ _ (entry question answer now) _ Hfresh)
      as (d' & Hpush & Hnew & Hothers & Hmail).
    rewrite Hpush. simpl bind. exists (h ++ [d']).
    change (lookup "email" [("email", VStr email)]) with (Some (VStr email)) in Hmail.
    assert (Hfind' : find_one "email" (VStr email) (h ++ [d']) = Some d').
    { unfold find_one. rewrite find_app, Hfind. simpl.
      rewrite (matches_eq_str _ email _ _ Hmail), String.eqb_refl. reflexivity. }
    split; [reflexivity|]. split; [|split].
    + now rewrite (session_chat_found _ _ session_id _ _ Hfind' Hmail).
    + intros e' s' Hne.
      destruct (String.eqb e' email) eqn:Ee.
      * apply String.eqb_eq in Ee. subst e'.
        destruct Hne as [Hne|Hne]; [contradiction|].
        rewrite (session_chat_found _ _ s' _ _ Hfind' Hmail).
        rewrite (Hothers s' Hne).
        now rewrite (session_chat_not_found h email s' Hfind).
      * unfold session_chat, find_one. rewrite find_app. simpl.
        rewrite (matches_eq_str _ e' _ _ Hmail), Ee.
        destruct (find (matches_eq "email" (VStr e')) h); reflexivity.
    + rewrite identity_records_app, Hid. simpl. now rewrite Hmail.
Qed.

(* ------------------------------------------------------------------ *)
(** ** Identity records stay identity records *)

(** A push touches the first field of its path only. *)
Lemma push_at_other_fields (k : string) (rest : list string) (v : value)
  (d d' : doc) (k' : string) :
  push_at (k :: rest) v d = Ok d' -> k' <> k -> lookup k' d' = lookup k' d.
Proof.
  intros H Hne. simpl in H. destruct rest as [|k2 rest].
  - destruct (lookup k d) as [[]|]; try discriminate;
      injection H as <-; now apply lookup_set_field_other.
  - destruct (lookup k d) as [[]|]; try discriminate;
      destruct (push_at (k2 :: rest) v _) as [sub'|]; try discriminate;
      simpl in H; injection H as <-; now apply lookup_set_field_other.
Qed.

Lemma update_first_ok_inv (p : doc -> bool) (f : doc -> result doc)
  (c c' : collection) :
  update_first p f c = Some (Ok c') ->
  exists c1 d d' c2, c = c1 ++ d :: c2 /\ c' = c1 ++ d' :: c2 /\ f d = Ok d'.
Proof.
  revert c'. induction c as [|x c IH]; simpl; intros c'; [discriminate|].
  destruct (p x).
  - destruct (f x) as [x'|] eqn:E; simpl; [|discriminate].
    intros [= <-]. now exists [], x, x', c.
  - destruct (update_first p f c) as [[r|]|]; simpl; try discriminate.
    intros [= <-]. destruct (IH r eq_refl) as (c1 & d & d' & c2 & -> & -> & Hf).
    now exists (x :: c1), d, d', c2.
Qed.

(** Whatever the session id, a saved message leaves a collection of
    identity records one. *)
Lemma save_message_identity_records (h h' : collection) (now : Z)
  (session_id question answer email : string) :
  identity_records h = true ->
  save_message_to_mongo now session_id question answer email h = Ok h' ->
  identity_records h' = true.
Proof.
  intros Hid. unfold save_message_to_mongo, update_one_push.
  change ("history." ++ session_id ++ ".chat")%string
    with ("history" ++ String "." (session_id ++ ".chat"))%string.
  rewrite split_on_append by reflexivity.
  destruct (negb _); [discriminate|].
  set (path := "history" :: split_on "." (session_id ++ ".chat")).
  set (m := VDoc _).
  destruct (update_first _ _ h) as [[c'|]|] eqn:E; try discriminate.
  - intros [= <-].
    destruct (update_first_ok_inv _ _ _ _ E) as (c1 & d & d' & c2 & -> & -> & Hf).
    rewrite identity_records_app in *. apply andb_true_iff in Hid as [H1 H2].
    rewrite H1. simpl in *.
    now rewrite (push_at_other_fields _ _ _ _ _ "email" Hf) by discriminate.
  - destruct (push_at path m [("email", VStr email)]) as [d'|] eqn:Hf;
      [|discriminate].
    simpl. intros [= <-].
    rewrite identity_records_app, Hid. simpl.
    now rewrite (push_at_other_fields _ _ _ _ _ "email" Hf) by discriminate.
Qed.
(* ================================================================== *)
(** * The chat handler *)
(* ================================================================== *)

Section ChatFacts.

Variable S : services.
Variable properties : collection.
Variable now : Z.

(** C2. A request that lacks [session_id], [email] or [question] is
    answered with status 400 and a body with an [error] field, and the
    history collection is left as it was. *)
Theorem chat_missing_field_rejected (data : json_object) (h : collection) :
  dict_get data "session_id" = None
  \/ dict_get data "email" = None
  \/ dict_get data "question" = None ->
  chat S properties now data h = (Ok bad_request, h)
  /\ status bad_request = 400
  /\ (exists msg, lookup "error" (body bad_request) = Some (VStr msg)).
Proof.
  intros H. split; [|split; [reflexivity|eexists; reflexivity]].
  unfold chat.
  destruct H as [H|[H|H]]; rewrite H; simpl.
  - reflexivity.
  - now rewrite orb_true_r.
  - now rewrite orb_true_r.
Qed.

(** X2. Validation also refuses empty values: a request in which one of
    the three fields is absent or the empty string is answered 400 and
    the history collection is left as it was. *)
Lemma chat_empty_field_rejected (data : json_object) (h : collection) :
  truthy_opt (dict_get data "session_id") = false
  \/ truthy_opt (dict_get data "email") = false
  \/ truthy_opt (dict_get data "question") = false ->
  chat S properties now data h = (Ok bad_request, h).
Proof.
  intros H. unfold chat.
  destruct H as [H|[H|H]]; rewrite H; simpl.
  - reflexivity.
  - now rewrite orb_true_r.
  - now rewrite orb_true_r.
Qed.

(** A request that passes validation is handed to [generate_answer]. *)
Lemma chat_valid (data : json_object) (h : collection)
  (session_id email question : string) :
  dict_get data "session_id" = Some session_id ->
  dict_get data "email" = Some email ->
  dict_get data "question" = Some question ->
  session_id <> EmptyString -> email <> EmptyString -> question <> EmptyString ->
  chat S properties now data h
  = match generate_answer S properties now question email session_id h with
    | (Ok r, h') => (Ok (jsonify [("response", VStr r)] 200), h')
    | (Raise e, h') => (Raise e, h')
    end.
Proof.
  intros Hs He Hq Ns Ne Nq. unfold chat. rewrite Hs, He, Hq. simpl.
  destruct session_id; [contradiction|].
  destruct email; [contradiction|].
  destruct question; [contradiction|].
  simpl. unfold st_bind.
  destruct (generate_answer _ _ _ _ _ _ h) as [[r|e] h']; reflexivity.
Qed.


(* ------------------------------------------------------------------ *)
(** ** The orchestrator *)

(** [generate_answer] step by step: four calls that read, then one write. *)
Lemma generate_answer_cases (user_input email session_id : string) (h : collection) :
  generate_answer S properties now user_input email session_id h
  = match fetch_chat_history h email session_id None with
    | Raise e => (Raise e, h)
    | Ok chat_history =>
        match mapM (format_turn S) chat_history with
        | Raise e => (Raise e, h)
        | Ok turns =>
            match get_query_results S properties user_input None with
            | Raise e => (Raise e, h)
            | Ok property_context =>
                match complete S (build_prompt S (join nl turns) property_context)
                        user_input with
                | Raise e => (Raise e, h)
                | Ok answer =>
                    match save_message_to_mongo now session_id user_input
                            answer email h with
                    | Raise e => (Raise e, h)
                    | Ok h' => (Ok answer, h')
                    end
                end
            end
        end
    end.
Proof.
  unfold generate_answer, st_bind, st_read, st_lift, st_write, st_ret.
  destruct (fetch_chat_history h email session_id None) as [hist|]; [|reflexivity].
  destruct (mapM (format_turn S) hist) as [turns|]; [|reflexivity].
  destruct (get_query_results S properties user_input None) as [docs|]; [|reflexivity].
  destruct (complete S _ user_input) as [answer|]; [|reflexivity].
  destruct (save_message_to_mongo _ _ _ _ _ h); reflexivity.
Qed.

(** The retrieval query needs the embedding and the search to succeed. *)
Lemma get_query_results_ok_inv (user_input : string) (limit : option Z)
  (docs : list doc) :
  get_query_results S properties user_input limit = Ok docs ->
  (exists q, handler_generate_embedding S user_input = Ok q)
  /\ search_fault S = None.
Proof.
  unfold get_query_results, aggregate.
  destruct (handler_generate_embedding S user_input) as [q|]; simpl; [|discriminate].
  destruct (search_fault S); [discriminate|].
  intros _. split; [now exists q|reflexivity].
Qed.

(** C10. The history is written last.  When [generate_answer] raises,
    whatever the reason, the history collection is what it was; and when
    it returns, the query embedding was produced, the vector search
    answered, the completion call returned the reply, and only then was
    the entry saved. *)
Theorem generate_answer_writes_last
  (user_input email session_id : string) (h : collection) :
  match generate_answer S properties now user_input email session_id h with
  | (Raise _, h') => h' = h
  | (Ok answer, h') =>
      (exists q, handler_generate_embedding S user_input = Ok q)
      /\ search_fault S = None
      /\ (exists docs, get_query_results S properties user_input None = Ok docs)
      /\ (exists prompt, complete S prompt user_input = Ok answer)
      /\ save_message_to_mongo now session_id user_input answer email h = Ok h'
  end.
Proof.
  rewrite generate_answer_cases.
  destruct (fetch_chat_history h email session_id None) as [hist|]; [|reflexivity].
  destruct (mapM (format_turn S) hist) as [turns|]; [|reflexivity].
  destruct (get_query_results S properties user_input None) as [docs|] eqn:Hq;
    [|reflexivity].
  destruct (complete S _ user_input) as [answer|] eqn:Hc; [|reflexivity].
  destruct (save_message_to_mongo _ _ _ _ _ h) as [h'|] eqn:Hs; [|reflexivity].
  destruct (get_query_results_ok_inv _ _ _ Hq) as [Hemb Hfault].
  repeat split; try assumption.
  - now exists docs.
  - eexists. exact Hc.
Qed.

(** A failing query embedding ends the run before anything is written. *)
Lemma generate_answer_embedding_failure
  (user_input email session_id : string) (h : collection) (e : exn) :
  handler_generate_embedding S user_input = Raise e ->
  exists e', generate_answer S properties now user_input email session_id h
             = (Raise e', h).
Proof.
  intros He. rewrite generate_answer_cases.
  destruct (fetch_chat_history h email session_id None) as [hist|]; [|now eexists].
  destruct (mapM (format_turn S) hist) as [turns|]; [|now eexists].
  unfold get_query_results. rewrite He. simpl. now eexists.
Qed.

(** So does a failing vector search. *)
Lemma generate_answer_search_failure
  (user_input email session_id : string) (h : collection) (e : exn) :
  search_fault S = Some e ->
  exists e', generate_answer S properties now user_input email session_id h
             = (Raise e', h).
Proof.
  intros He. rewrite generate_answer_cases.
  destruct (fetch_chat_history h email session_id None) as [hist|]; [|now eexists].
  destruct (mapM (format_turn S) hist) as [turns|]; [|now eexists].
  unfold get_query_results, aggregate. rewrite He.
  destruct (handler_generate_embedding S user_input); simpl; now eexists.
Qed.

(** And a failing completion call. *)
Lemma generate_answer_completion_failure
  (user_input email session_id : string) (h : collection) (e : exn) :
  (forall prompt, complete S prompt user_input = Raise e) ->
  exists e', generate_answer S properties now user_input email session_id h
             = (Raise e', h).
Proof.
  intros He. rewrite generate_answer_cases.
  destruct (fetch_chat_history h email session_id None) as [hist|]; [|now eexists].
  destruct (mapM (format_turn S) hist) as [turns|]; [|now eexists].
  destruct (get_query_results S properties user_input None); [|now eexists].
  rewrite He. now eexists.
Qed.

(* ------------------------------------------------------------------ *)
(** ** A valid request *)

(** C1, as the code has it.  A request with the three fields present and
    non-empty, whose session id is a plain key, on a collection of
    identity records in which that session can be read, and for which
    the retrieval query answers and the completion call returns
    [answer]: the handler returns status 200 with [answer] as the
    response, exactly one entry [{req, res, timestamp}] is appended to
    the history of that email and session, and every other session reads
    as before. *)
Theorem chat_valid_request_appends_one_entry
  (data : json_object) (h : collection)
  (session_id email question answer : string)
  (old : list value) (turns : list string) (docs : list doc) :
  dict_get data "session_id" = Some session_id ->
  dict_get data "email" = Some email ->
  dict_get data "question" = Some question ->
  session_id <> EmptyString -> email <> EmptyString -> question <> EmptyString ->
  plain_key session_id = true ->
  identity_records h = true ->
  session_chat h email session_id = Ok (VArr old) ->
  mapM (format_turn S) (slice_from (- 10) old) = Ok turns ->
  get_query_results S properties question None = Ok docs ->
  complete S (build_prompt S (join nl turns) docs) question = Ok answer ->
  exists h',
    chat S properties now data h
    = (Ok (jsonify [("response", VStr answer)] 200), h')
    /\ session_chat h' email session_id
       = Ok (VArr (old ++ [entry question answer now]))
    /\ (forall e' s', e' <> email \/ s' <> session_id ->
          session_chat h' e' s' = session_chat h e' s').
Proof.
  intros Hs He Hq Ns Ne Nq Hkey Hid Hold Hturns Hdocs Hanswer.
  destruct (save_message_appends h now session_id question answer email old
              Hkey Hid Hold) as (h' & Hsave & Hnew & Hothers & _).
  exists h'. split; [|split; assumption].
  rewrite (chat_valid data h session_id email question Hs He Hq Ns Ne Nq).
  rewrite generate_answer_cases.
  assert (Hfetch : fetch_chat_history h email session_id None
                   = Ok (slice_from (- 10) old))
    by now rewrite (fetch_chat_history_session_chat _ _ _ None _ Hold).
  rewrite Hfetch, Hturns, Hdocs, Hanswer, Hsave. reflexivity.
Qed.

(** X3. The handler keeps the history collection a collection of identity
    records, whatever the request and whatever the outcome. *)
Lemma chat_identity_records (data : json_object) (h h' : collection)
  (r : result response) :
  identity_records h = true ->
  chat S properties now data h = (r, h') ->
  identity_records h' = true.
Proof.
  intros Hid. unfold chat.
  destruct (negb _ || negb _ || negb _).
  - now intros [= _ <-].
  - unfold st_bind. rewrite generate_answer_cases.
    destruct (fetch_chat_history h _ _ None) as [hist|]; [|now intros [= _ <-]].
    destruct (mapM (format_turn S) hist) as [turns|]; [|now intros [= _ <-]].
    destruct (get_query_results S properties _ None) as [docs|];
      [|now intros [= _ <-]].
    destruct (complete S _ _) as [answer|]; [|now intros [= _ <-]].
    destruct (save_message_to_mongo _ _ _ _ _ h) as [h1|] eqn:Hs;
      [|now intros [= _ <-]].
    intros [= _ <-]. exact (save_message_identity_records _ _ _ _ _ _ _ Hid Hs).
Qed.

(** An entry written by the service renders as a line pair of the
    memory context. *)
Lemma format_turn_entry (question answer : string) (t : Z) :
  format_turn S (entry question answer t)
  = Ok ("User: " ++ question ++ nl ++ "Assistant: " ++ answer)%string.
Proof. reflexivity. Qed.

End ChatFacts.

(* ================================================================== *)
(** * The retrieval query *)
(* ================================================================== *)

Lemma insert_desc_in (x z : hit) (l : list hit) :
  In z (insert_desc x l) -> z = x \/ In z l.
Proof.
  induction l as [|y ys IH]; simpl.
  - intros [<-|[]]. now left.
  - destruct (Qle_bool (fst y) (fst x)); simpl.
    + intros [<-|H]; [now left|now right].
    + intros [<-|H]; [right; now left|].
      destruct (IH H) as [->|H']; [now left|right; now right].
Qed.

Lemma insert_desc_sorted (x : hit) (l : list hit) :
  StronglySorted by_score_desc l -> StronglySorted by_score_desc (insert_desc x l).
Proof.
  induction 1 as [|y ys Hs IH Hall]; simpl.
  - repeat constructor.
  - destruct (Qle_bool (fst y) (fst x)) eqn:E.
    + apply Qle_bool_iff in E.
      constructor; [now constructor|].
      constructor; [exact E|].
      rewrite Forall_forall in *. intros z Hz.
      unfold by_score_desc in *. apply Qle_trans with (fst y); auto.
    + assert (Hlt : (fst x <= fst y)%Q).
      { apply Qlt_le_weak, Qnot_le_lt. intros H.
        apply Qle_bool_iff in H. congruence. }
      constructor; [exact IH|].
      rewrite Forall_forall in *. intros z Hz.
      destruct (insert_desc_in _ _ _ Hz) as [->|Hz']; [exact Hlt|auto].
Qed.

Lemma sort_desc_sorted (l : list hit) : StronglySorted by_score_desc (sort_desc l).
Proof.
  induction l as [|x l IH]; simpl; [constructor|].
  now apply insert_desc_sorted.
Qed.

Lemma sort_desc_in (z : hit) (l : list hit) : In z (sort_desc l) -> In z l.
Proof.
  induction l as [|x l IH]; simpl; [tauto|].
  intros H. destruct (insert_desc_in _ _ _ H) as [->|H']; [now left|right; auto].
Qed.

Lemma firstn_in {A} (n : nat) (l : list A) (x : A) :
  In x (firstn n l) -> In x l.
Proof.
  revert n. induction l as [|y l IH]; intros [|n]; simpl; try tauto.
  intros [H|H]; [now left|right; eauto].
Qed.

Lemma firstn_sorted {A} (R : A -> A -> Prop) (n : nat) (l : list A) :
  StronglySorted R l -> StronglySorted R (firstn n l).
Proof.
  intros H. revert n. induction H as [|x l Hs IH Hall]; intros [|n]; simpl;
    try constructor.
  - apply IH.
  - rewrite Forall_forall in *. intros z Hz. apply Hall.
    now apply (firstn_in n l).
Qed.

Lemma insert_desc_keeps (x z : hit) (l : list hit) :
  z = x \/ In z l -> In z (insert_desc x l).
Proof.
  induction l as [|y ys IH]; simpl.
  - intros [->|[]]. now left.
  - destruct (Qle_bool (fst y) (fst x)); simpl.
    + intros [->|H]; [now left|now right].
    + intros [->|[->|H]]; [right; apply IH; now left|now left|right; apply IH; now right].
Qed.

Lemma sort_desc_keeps (z : hit) (l : list hit) : In z l -> In z (sort_desc l).
Proof.
  induction l as [|x l IH]; simpl; [tauto|].
  intros [->|H]; apply insert_desc_keeps; [now left|right; auto].
Qed.

(** In a sorted list, what [firstn] keeps stands before what it drops. *)
Lemma sorted_firstn_skipn {A} (R : A -> A -> Prop) (n : nat) (l : list A) :
  StronglySorted R l ->
  forall x y, In x (firstn n l) -> In y (skipn n l) -> R x y.
Proof.
  intros H. revert n. induction H as [|a l Hs IH Hall]; intros [|n] x y Hx Hy;
    simpl in *; try contradiction.
  destruct Hx as [<-|Hx].
  - rewrite Forall_forall in Hall. apply Hall.
    rewrite <- (firstn_skipn n l). apply in_or_app. now right.
  - now apply (IH n).
Qed.

(** The hits are the best candidates: an indexed record that is not
    among them scores no higher than any of them. *)
Lemma vector_search_best (sim : value -> value -> option Q) (q : value)
  (path : string) (limit : Z) (docs : list doc) (x y : hit) :
  In x (vector_search sim q path limit docs) ->
  In y (candidates sim q path docs) ->
  ~ In y (vector_search sim q path limit docs) ->
  (fst y <= fst x)%Q.
Proof.
  unfold vector_search. intros Hx Hy Hny.
  apply sort_desc_keeps in Hy.
  rewrite <- (firstn_skipn (Z.to_nat limit)) in Hy.
  apply in_app_or in Hy as [Hy|Hy]; [contradiction|].
  exact (sorted_firstn_skipn by_score_desc _ _ (sort_desc_sorted _) x y Hx Hy).
Qed.

Lemma candidates_in (sim : value -> value -> option Q) (q : value)
  (path : string) (docs : list doc) (x : hit) :
  In x (candidates sim q path docs) ->
  In (snd x) docs
  /\ exists v, lookup path (snd x) = Some v /\ sim q v = Some (fst x).
Proof.
  unfold candidates. rewrite in_flat_map. intros (d & Hd & Hx).
  destruct (lookup path d) as [v|] eqn:El; [|contradiction].
  destruct (sim q v) as [s|] eqn:Es; [|contradiction].
  destruct Hx as [<-|[]]. simpl. split; [exact Hd|now exists v].
Qed.

Lemma vector_search_length (sim : value -> value -> option Q) (q : value)
  (path : string) (limit : Z) (docs : list doc) :
  1 <= limit ->
  Z.of_nat (List.length (vector_search sim q path limit docs)) <= limit.
Proof.
  intros H. unfold vector_search.
  pose proof (firstn_le_length (Z.to_nat limit)
                (sort_desc (candidates sim q path docs))).
  lia.
Qed.

Lemma project_fields (fields : list string) (d : doc) (k : string) (v : value) :
  In (k, v) (project fields d) -> In k fields /\ In (k, v) d.
Proof.
  unfold project. rewrite filter_In. simpl. intros [Hin Hex].
  split; [|exact Hin].
  apply existsb_exists in Hex as (f & Hf & E).
  apply String.eqb_eq in E. now subst.
Qed.

Section SearchFacts.

Variable S : services.
Variable properties : collection.

(** C6. The retrieval query, for every text and limit (5 when none is
    given).  When it returns, it returns at most [limit] records, each
    holding no field but [_id] and [text], and they are the projections
    of indexed records of the collection in order of decreasing
    similarity to the query embedding.  It returns unless the embedding
    call fails, the search round trip fails, or the limit is below 1. *)
Theorem get_query_results_top_limit (user_input : string) (limit : option Z) :
  let n := match limit with Some n => n | None => 5 end in
  match get_query_results S properties user_input limit with
  | Ok records =>
      Z.of_nat (List.length records) <= n
      /\ Forall (fun r => forall k v, In (k, v) r -> k = "_id" \/ k = "text")
           records
      /\ exists q hits,
           handler_generate_embedding S user_input = Ok q
           /\ records = map (fun x => project ["_id"; "text"] (snd x)) hits
           /\ StronglySorted by_score_desc hits
           /\ Forall
                (fun x =>
                   In (snd x) properties
                   /\ exists v, lookup "embedding" (snd x) = Some v
                                /\ similarity S q v = Some (fst x))
                hits
  | Raise _ =>
      (exists e, handler_generate_embedding S user_input = Raise e)
      \/ (exists e, search_fault S = Some e)
      \/ n < 1
  end.
Proof.
  intros n. unfold get_query_results. fold n.
  destruct (handler_generate_embedding S user_input) as [q|e] eqn:Eq; simpl;
    [|left; now exists e].
  unfold aggregate.
  destruct (search_fault S) as [e|] eqn:Ef; [right; left; now exists e|].
  simpl. destruct (n <? 1) eqn:En; simpl.
  - right; right. now apply Z.ltb_lt.
  - apply Z.ltb_ge in En.
    set (hits := vector_search (similarity S) q "embedding" n properties).
    split; [|split].
    + rewrite !length_map. now apply vector_search_length.
    + rewrite Forall_forall. intros r Hr k v Hkv.
      apply in_map_iff in Hr as (d & <- & _).
      apply project_fields in Hkv as [Hk _].
      destruct Hk as [<-|[<-|[]]]; [now left|now right].
    + exists q, hits. split; [reflexivity|]. split; [now rewrite map_map|]. split.
      * apply firstn_sorted, sort_desc_sorted.
      * rewrite Forall_forall. intros x Hx.
        apply (candidates_in (similarity S) q "embedding" properties).
        apply sort_desc_in. unfold hits, vector_search in Hx.
        now apply (firstn_in (Z.to_nat n)).
Qed.

(** Without a limit the query asks for five records. *)
Lemma get_query_results_default_limit (user_input : string) :
  get_query_results S properties user_input None
  = get_query_results S properties user_input (Some 5).
Proof. reflexivity. Qed.

End SearchFacts.

(* ================================================================== *)
(** * The embedding synchronization job *)
(* ================================================================== *)

(* ------------------------------------------------------------------ *)
(** ** The frame loaded from a collection *)

Lemma add_key_keeps (ks acc : list string) (k : string) :
  In k acc ->
  In k (fold_left
          (fun acc k => if existsb (String.eqb k) acc then acc else acc ++ [k])
          ks acc).
Proof.
  revert acc. induction ks as [|k0 ks IH]; intros acc H; simpl; [exact H|].
  apply IH. destruct (existsb (String.eqb k0) acc); [exact H|].
  apply in_or_app. now left.
Qed.

Lemma add_key_adds (ks acc : list string) (k : string) :
  In k ks ->
  In k (fold_left
          (fun acc k => if existsb (String.eqb k) acc then acc else acc ++ [k])
          ks acc).
Proof.
  revert acc. induction ks as [|k0 ks IH]; intros acc H; simpl; [contradiction|].
  destruct H as [->|H]; [|now apply IH].
  apply add_key_keeps.
  destruct (existsb (String.eqb k) acc) eqn:E.
  - apply existsb_exists in E as (x & Hx & Ex).
    apply String.eqb_eq in Ex. now subst.
  - apply in_or_app. right. now left.
Qed.

Lemma columns_keep (c : collection) (seen : list string) (k : string) :
  In k seen -> In k (fold_left add_keys c seen).
Proof.
  revert seen. induction c as [|d c IH]; intros seen H; simpl; [exact H|].
  apply IH. unfold add_keys. now apply add_key_keeps.
Qed.

Lemma lookup_key (k : string) (d : doc) (v : value) :
  lookup k d = Some v -> In k (map fst d).
Proof.
  induction d as [|[k' v'] d IH]; simpl; [discriminate|].
  destruct (String.eqb k k') eqn:E.
  - apply String.eqb_eq in E. subst. now left.
  - intros H. right. now apply IH.
Qed.

(** A key of any record is a column of the frame. *)
Lemma columns_of_key (c : collection) (d : doc) (k : string) (v : value) :
  In d c -> lookup k d = Some v -> In k (columns_of c).
Proof.
  unfold columns_of. generalize (@nil string) as seen.
  induction c as [|d0 c IH]; intros seen Hd Hk; simpl; [contradiction|].
  destruct Hd as [->|Hd]; [|now apply IH].
  apply columns_keep. unfold add_keys. apply add_key_adds.
  now apply lookup_key with v.
Qed.

Lemma lookup_labelled (f : string -> value) (cols : list string) (k : string) :
  In k cols -> lookup k (map (fun k => (k, f k)) cols) = Some (f k).
Proof.
  induction cols as [|k0 cols IH]; simpl; [contradiction|].
  intros H. destruct (String.eqb k k0) eqn:E.
  - apply String.eqb_eq in E. now subst.
  - destruct H as [->|H]; [now rewrite String.eqb_refl in E|now apply IH].
Qed.

(** The cell of a row in a column of the frame. *)
Lemma row_cell (c : collection) (d : doc) (k : string) :
  In k (columns_of c) ->
  lookup k (row_of c (columns_of c) d)
  = Some (infer (map (cell k) c) (cell k d)).
Proof.
  intros H. unfold row_of.
  now rewrite (lookup_labelled (fun k => infer (map (cell k) c) (cell k d))).
Qed.

Lemma infer_not_none (cells : list value) (v : value) :
  is_none v = false -> infer cells v = v.
Proof.
  intros H. unfold infer. now rewrite H.
Qed.

(** In a column of nulls and vectors the nulls stay [None]. *)
Lemma keeps_none_known (k : string) (c : collection) :
  forallb
    (fun d => match lookup k d with
              | Some (VArr _) | Some VNull => true
              | _ => false
              end) c = true ->
  keeps_none (map (cell k) c) = true.
Proof.
  intros H. unfold keeps_none.
  destruct (existsb forces_object (map (cell k) c)) eqn:E;
    [now rewrite orb_true_r|].
  rewrite orb_false_r.
  assert (Hn : forallb is_none (map (cell k) c) = true); [|now rewrite Hn].
  induction c as [|d c IH]; [reflexivity|].
  simpl in *. apply andb_true_iff in H as [Hd Hc].
  apply orb_false_iff in E as [Ed Ec].
  rewrite (IH Hc Ec), andb_true_r.
  unfold cell in *. destruct (lookup k d) as [[]|]; simpl in *; congruence.
Qed.

Lemma df_not_empty (c : collection) (d : doc) (k : string) (v : value) :
  In d c -> lookup k d = Some v -> df_empty (load_data c) = false.
Proof.
  intros Hd Hk. unfold df_empty, load_data. simpl.
  pose proof (columns_of_key c d k v Hd Hk) as Hcol.
  destruct (columns_of c); [contradiction|].
  destruct c; [contradiction|reflexivity].
Qed.

(* ------------------------------------------------------------------ *)
(** ** One update by [_id] *)

Lemma unique_ids_id (d : doc) (rest : collection) :
  unique_ids (d :: rest) = true ->
  exists id,
    lookup "_id" d = Some id
    /\ is_none id = false
    /\ (forall v, matches_eq "_id" v d = value_eqb v id)
    /\ forallb (fun d' => negb (matches_eq "_id" id d')) rest = true
    /\ unique_ids rest = true.
Proof.
  simpl. unfold matches_eq.
  destruct (lookup "_id" d) as [id|]; [|discriminate].
  destruct id; try discriminate; intros H; apply andb_true_iff in H as [H1 H2];
    eexists; repeat split; try reflexivity; assumption.
Qed.

Lemma unique_ids_suffix (pre c : collection) :
  unique_ids (pre ++ c) = true -> unique_ids c = true.
Proof.
  induction pre as [|x pre IH]; simpl app; intros H; [exact H|].
  destruct (unique_ids_id _ _ H) as (_ & _ & _ & _ & _ & Hr). now apply IH.
Qed.

(** In a collection with unique ids, the filter [{'_id': id}] of a record
    matches no record that stands before it. *)
Lemma unique_ids_before (pre : collection) (d : doc) (suf : collection) (id : value) :
  unique_ids (pre ++ d :: suf) = true ->
  lookup "_id" d = Some id ->
  find (matches_eq "_id" id) pre = None
  /\ matches_eq "_id" id d = true
  /\ is_none id = false.
Proof.
  induction pre as [|x pre IH]; simpl app; intros H Hid.
  - destruct (unique_ids_id _ _ H) as (id' & Hid' & Hnn & Hm & _).
    rewrite Hid in Hid'. injection Hid' as <-.
    split; [reflexivity|]. split; [|exact Hnn].
    rewrite Hm. apply value_eqb_refl.
  - destruct (unique_ids_id _ _ H) as (idx & Hidx & _ & Hmx & Hall & Hrest).
    destruct (IH Hrest Hid) as (Hpre & Hd & Hnn).
    split; [|split; assumption].
    simpl. rewrite Hmx.
    rewrite forallb_forall in Hall.
    assert (Hin : In d (pre ++ d :: suf)) by (apply in_or_app; right; now left).
    specialize (Hall d Hin).
    apply negb_true_iff in Hall.
    destruct (unique_ids_id d suf (unique_ids_suffix _ _ Hrest))
      as (id' & Hid' & _ & Hm' & _).
    rewrite Hid in Hid'. injection Hid' as <-.
    rewrite Hm' in Hall. rewrite value_eqb_sym, Hall. exact Hpre.
Qed.

(** [unique_ids] looks at the [_id]s only. *)
Lemma unique_ids_same_ids (c c' : collection) :
  map (lookup "_id") c = map (lookup "_id") c' ->
  unique_ids c = unique_ids c'.
Proof.
  revert c'. induction c as [|d c IH]; intros [|d' c'] H; try discriminate;
    [reflexivity|].
  simpl in H. injection H as Hd Hc. simpl. rewrite <- Hd.
  rewrite (IH c' Hc).
  destruct (lookup "_id" d) as [id|]; [|reflexivity].
  assert (E : forallb (fun x => negb (matches_eq "_id" id x)) c
              = forallb (fun x => negb (matches_eq "_id" id x)) c').
  { clear - Hc. revert c' Hc.
    induction c as [|y c IH]; intros [|y' c'] H; try discriminate; [reflexivity|].
    simpl in H. injection H as Hy Hc. simpl.
    rewrite (IH c' Hc). f_equal. f_equal.
    symmetry. now apply matches_eq_same_field. }
  now rewrite E.
Qed.

(** The update by a record's own [_id] reaches that record. *)
Lemma update_one_set_own (pre : collection) (d : doc) (suf : collection)
  (id v : value) (k : string) :
  unique_ids (pre ++ d :: suf) = true ->
  lookup "_id" d = Some id ->
  update_one_set "_id" id k v (pre ++ d :: suf) = pre ++ set_field k v d :: suf.
Proof.
  intros Hu Hid.
  destruct (unique_ids_before _ _ _ _ Hu Hid) as (Hpre & Hd & _).
  unfold update_one_set.
  assert (Hfind : find (matches_eq "_id" id) (pre ++ d :: suf) = Some d).
  { rewrite find_app, Hpre. simpl. now rewrite Hd. }
  destruct (update_first_found _ (fun d => Ok (set_field k v d)) _ _ _
              Hfind eq_refl) as (c1 & c2 & Hsplit & Hc1 & Hupd).
  rewrite Hupd.
  (* the split found is the split given *)
  clear Hupd Hfind Hu.
  revert c1 Hsplit Hc1. induction pre as [|x pre IH]; intros [|y c1] Hsplit Hc1.
  - simpl in *. injection Hsplit as <-. reflexivity.
  - simpl in *. injection Hsplit as <- _. now rewrite Hd in Hc1.
  - simpl in *. injection Hsplit as -> _.
    destruct (matches_eq "_id" id d); discriminate.
  - simpl in *. injection Hsplit as <- Hs.
    destruct (matches_eq "_id" id x); [discriminate|].
    f_equal. now apply IH.
Qed.

Section JobFacts.

Variable S : services.

(* ------------------------------------------------------------------ *)
(** ** The pass over the rows that computes embeddings *)

(** The pass issues no write. *)
Lemma apply_rows_no_write (rows : list doc) :
  writes (snd (df_apply (embed_row S) rows)) = [].
Proof.
  induction rows as [|row rows IH]; [reflexivity|]. simpl.
  assert (Hrow : writes (snd (embed_row S row)) = []).
  { unfold embed_row. destruct (series_item row "embedding") as [[]|]; reflexivity. }
  destruct (embed_row S row) as [[v|e] t]; simpl in *; [|exact Hrow].
  destruct (df_apply (embed_row S) rows) as [[vs|e] t']; simpl in *;
    unfold writes in *; now rewrite filter_app, Hrow, IH.
Qed.

(** A row on which the lambda raises ends the pass with an exception. *)
Lemma apply_rows_raises (rows : list doc) (row : doc) (e : exn) :
  In row rows -> fst (embed_row S row) = Raise e ->
  exists e', fst (df_apply (embed_row S) rows) = Raise e'.
Proof.
  induction rows as [|r rows IH]; simpl; [contradiction|].
  intros [->|Hin] He.
  - destruct (embed_row S row) as [[v|e0] t]; simpl in *; [discriminate|].
    now exists e0.
  - destruct (embed_row S r) as [[v|e0] t]; simpl; [|now exists e0].
    destruct (IH Hin He) as (e' & He').
    destruct (df_apply (embed_row S) rows) as [[vs|e1] t']; simpl in *; [discriminate|].
    now exists e1.
Qed.

(** A pass that succeeds yields one cell per row. *)
Lemma apply_rows_length (rows : list doc) (cells : list value) (t : list event) :
  df_apply (embed_row S) rows = (Ok cells, t) -> List.length cells = List.length rows.
Proof.
  revert cells t. induction rows as [|row rows IH]; simpl; intros cells t.
  - now intros [= <- _].
  - destruct (embed_row S row) as [[v|e] t0]; [|discriminate].
    destruct (df_apply (embed_row S) rows) as [[vs|e] t'] eqn:E; [|discriminate].
    intros [= <- _]. simpl. f_equal. now apply (IH vs t').
Qed.

(** Rows of records that carry an embedding: the cells are kept and the
    generator is not called. *)
Lemma apply_rows_embedded (c docs : collection) :
  In "embedding" (columns_of c) ->
  forallb has_embedding docs = true ->
  df_apply (embed_row S) (map (row_of c (columns_of c)) docs)
  = (Ok (map (cell "embedding") docs), []).
Proof.
  intros Hcol. induction docs as [|d docs IH]; simpl; [reflexivity|].
  intros H. apply andb_true_iff in H as [Hd Hdocs].
  rewrite (IH Hdocs).
  unfold embed_row, series_item. rewrite (row_cell c d "embedding" Hcol).
  unfold has_embedding, cell in *.
  destruct (lookup "embedding" d) as [[]|]; try discriminate.
  now rewrite infer_not_none.
Qed.

(* ------------------------------------------------------------------ *)
(** ** The loop that writes the cells back *)

Lemma assigned_row_items (c : collection) (d : doc) (id v : value) :
  In "_id" (columns_of c) ->
  lookup "_id" d = Some id -> is_none id = false ->
  series_item (set_field "embedding" v (row_of c (columns_of c) d)) "_id" = Ok id
  /\ series_item (set_field "embedding" v (row_of c (columns_of c) d)) "embedding"
     = Ok v.
Proof.
  intros Hcol Hid Hnn. unfold series_item.
  rewrite lookup_set_field_same.
  rewrite lookup_set_field_other by discriminate.
  rewrite (row_cell c d "_id" Hcol).
  unfold cell. rewrite Hid. now rewrite infer_not_none.
Qed.

(** The loop over the rows of [docs], with the new cells assigned: every
    record gets its cell, in order, by one update each. *)
Lemma update_rows_assigned (c : collection) :
  In "_id" (columns_of c) ->
  forall (docs : collection) (cells : list value) (pre : collection)
    (t : list event),
    List.length cells = List.length docs ->
    unique_ids (pre ++ docs) = true ->
    update_rows
      (assign_column "embedding" cells (map (row_of c (columns_of c)) docs))
      (pre ++ docs) t
    = (Ok tt,
       pre ++ map (fun p => set_field "embedding" (snd p) (fst p)) (combine docs cells),
       t ++ map (fun p => UpdateOne (cell "_id" (fst p)) (snd p)) (combine docs cells)).
Proof.
  intros Hcol.
  induction docs as [|d docs IH]; intros [|v cells] pre t Hlen Hu;
    try discriminate; simpl.
  - now rewrite !app_nil_r.
  - injection Hlen as Hlen.
    destruct (unique_ids_id d docs (unique_ids_suffix _ _ Hu))
      as (id & Hid & Hnn & _).
    assert (Hcell : cell "_id" d = id) by (unfold cell; now rewrite Hid).
    rewrite Hcell.
    destruct (assigned_row_items c d id v Hcol Hid Hnn) as [H1 H2].
    rewrite H1, H2.
    rewrite (update_one_set_own pre d docs id v "embedding" Hu Hid).
    change (pre ++ set_field "embedding" v d :: docs)
      with (pre ++ [set_field "embedding" v d] ++ docs).
    rewrite app_assoc.
    rewrite IH; [|exact Hlen|].
    + rewrite <- !app_assoc. reflexivity.
    + rewrite <- Hu. apply unique_ids_same_ids.
      rewrite <- app_assoc, !map_app. simpl.
      now rewrite lookup_set_field_other by discriminate.
Qed.

(* ------------------------------------------------------------------ *)
(** ** The job *)

(** The run of the job once the pass over the rows has succeeded. *)
Lemma job_after_pass (c : collection) (cells : list value) (t : list event) :
  c <> [] ->
  unique_ids c = true ->
  df_apply (embed_row S) (rows (load_data c)) = (Ok cells, t) ->
  generate_and_save_embeddings S c
  = (Ok "Embeddings generated and saved successfully where needed.",
     map (fun p => set_field "embedding" (snd p) (fst p)) (combine c cells),
     t ++ map (fun p => UpdateOne (cell "_id" (fst p)) (snd p)) (combine c cells)).
Proof.
  intros Hne Hu Hpass.
  destruct c as [|d0 c0] eqn:Ec; [contradiction|]. rewrite <- Ec in *.
  destruct (unique_ids_id d0 c0) as (id0 & Hid0 & _); [now rewrite <- Ec|].
  assert (Hin0 : In d0 c) by (rewrite Ec; now left).
  assert (Hcol : In "_id" (columns_of c)) by exact (columns_of_key c d0 "_id" id0 Hin0 Hid0).
  unfold generate_and_save_embeddings.
  rewrite (df_not_empty c d0 "_id" id0 Hin0 Hid0), Hpass.
  pose proof (apply_rows_length _ _ _ Hpass) as Hlen.
  unfold load_data in *. simpl rows in *. rewrite length_map in Hlen.
  pose proof (update_rows_assigned c Hcol c cells [] t Hlen Hu) as Hupd.
  simpl app in Hupd. now rewrite Hupd.
Qed.

(** C7. On an empty collection the job returns the no-documents message;
    it does not fail, calls the embedding generator not once, and writes
    nothing. *)
Theorem generate_and_save_embeddings_empty :
  generate_and_save_embeddings S []
  = (Ok "No documents found in the collection.", [], [])
  /\ calls (snd (generate_and_save_embeddings S [])) = [].
Proof.
  split; reflexivity.
Qed.

(** C9. When the generator raises on the text of a row whose embedding
    cell is [None], the job raises: the exception is not caught, the row
    is not skipped and not tried again.  All embeddings are computed
    before the first write, so the collection is as it was. *)
Theorem generate_and_save_embeddings_aborts
  (c : collection) (row : doc) (e : exn) :
  In row (rows (load_data c)) ->
  lookup "embedding" row = Some VNull ->
  generate_embedding S (row_text S row) = Raise e ->
  exists e' t,
    generate_and_save_embeddings S c = (Raise e', c, t)
    /\ writes t = [].
Proof.
  intros Hrow Hcell Hgen.
  assert (Hlam : fst (embed_row S row) = Raise e).
  { unfold embed_row, series_item. rewrite Hcell. exact Hgen. }
  destruct (apply_rows_raises _ _ _ Hrow Hlam) as (e' & He').
  pose proof (apply_rows_no_write (rows (load_data c))) as Hw.
  unfold generate_and_save_embeddings.
  assert (Hne : df_empty (load_data c) = false).
  { unfold load_data in *. simpl in Hrow. apply in_map_iff in Hrow as (d & Hd & Hin).
    unfold df_empty. simpl.
    destruct (columns_of c) eqn:Ecols.
    - subst row. discriminate.
    - destruct c; [contradiction|reflexivity]. }
  rewrite Hne.
  destruct (df_apply (embed_row S) (rows (load_data c))) as [[cells|e0] t]; simpl in *;
    [discriminate|].
  now exists e0, t.
Qed.

(** C4, as the code has it.  On a collection (not empty, with unique
    ids) in which every record carries an embedding, the job reports
    success, calls the generator not once and leaves every record as it
    was; it does issue one [update_one] per record, each setting the
    embedding to the value the record has. *)
Theorem generate_and_save_embeddings_all_embedded (c : collection) :
  c <> [] ->
  unique_ids c = true ->
  forallb has_embedding c = true ->
  exists t,
    generate_and_save_embeddings S c
    = (Ok "Embeddings generated and saved successfully where needed.", c, t)
    /\ calls t = []
    /\ writes t = map (fun d => UpdateOne (cell "_id" d) (cell "embedding" d)) c.
Proof.
  intros Hne Hu Hall.
  destruct c as [|d0 c0] eqn:Ec; [contradiction|]. rewrite <- Ec in *.
  assert (Hin0 : In d0 c) by (rewrite Ec; now left).
  assert (Hcol : In "embedding" (columns_of c)).
  { rewrite forallb_forall in Hall. specialize (Hall d0 Hin0).
    unfold has_embedding in Hall.
    destruct (lookup "embedding" d0) as [v|] eqn:E; [|discriminate].
    exact (columns_of_key c d0 "embedding" v Hin0 E). }
  pose proof (apply_rows_embedded c c Hcol Hall) as Hpass.
  rewrite (job_after_pass c _ _ Hne Hu Hpass).
  assert (Hsame : map (fun p => set_field "embedding" (snd p) (fst p))
                    (combine c (map (cell "embedding") c)) = c).
  { clear - Hall. induction c as [|d c IH]; [reflexivity|].
    simpl in *. apply andb_true_iff in Hall as [Hd Hc].
    rewrite (IH Hc). f_equal.
    apply set_field_same. unfold has_embedding, cell in *.
    now destruct (lookup "embedding" d). }
  rewrite Hsame.
  eexists. split; [reflexivity|].
  assert (Hev : map (fun p => UpdateOne (cell "_id" (fst p)) (snd p))
                  (combine c (map (cell "embedding") c))
                = map (fun d => UpdateOne (cell "_id" d) (cell "embedding" d)) c).
  { clear. induction c as [|d c IH]; [reflexivity|]. simpl. now rewrite IH. }
  rewrite Hev. simpl app. split.
  - clear. induction c as [|d c IH]; [reflexivity|]. exact IH.
  - clear. induction c as [|d c IH]; [reflexivity|].
    unfold writes in *. simpl. now rewrite IH.
Qed.

(* ------------------------------------------------------------------ *)
(** ** Records whose embedding is null *)




End JobFacts.

(* ================================================================== *)
(** * The statements on sample inputs *)
(* ================================================================== *)

(** The hypothesis of C8 holds of an email the collection does not know. *)
Lemma fetch_chat_history_unknown_email_sample :
  (forall d, In d three_turns -> matches_eq "email" (VStr "x@y.com") d = false)
  /\ fetch_chat_history three_turns "x@y.com" "s1" (Some 5) = Ok [].
Proof.
  assert (H : forall d, In d three_turns ->
                matches_eq "email" (VStr "x@y.com") d = false).
  { intros d [<-|[]]. reflexivity. }
  split; [exact H|].
  exact (fetch_chat_history_unknown_email three_turns "x@y.com" "s1" (Some 5) H).
Defined.

(** C2 on a request without a session id. *)
Lemma chat_missing_field_rejected_sample :
  dict_get no_session_request "session_id" = None
  /\ chat demo_services embedded_listings 7 no_session_request three_turns
     = (Ok bad_request, three_turns).
Proof.
  split; [reflexivity|].
  apply (chat_missing_field_rejected demo_services embedded_listings 7
           no_session_request three_turns).
  left. reflexivity.
Defined.

(** C1 on the request of the example scenario, as a fourth turn. *)
Lemma chat_valid_request_sample :
  exists h',
    chat demo_services embedded_listings 7 hello_request three_turns
    = (Ok (jsonify [("response", VStr "Hello, how can I assist you?")] 200), h')
    /\ session_chat h' "a@b.com" "s1"
       = Ok (VArr (three_entries
                   ++ [entry "Hello" "Hello, how can I assist you?" 7]))
    /\ (forall e' s', e' <> "a@b.com" \/ s' <> "s1" ->
          session_chat h' e' s' = session_chat three_turns e' s').
Proof.
  eapply (chat_valid_request_appends_one_entry demo_services embedded_listings 7
            hello_request three_turns "s1" "a@b.com" "Hello"
            "Hello, how can I assist you?" three_entries);
    try reflexivity; discriminate.
Defined.

(** C1 as stated fails: a valid request, a completion endpoint that is
    down, and the handler raises (a 500 for the client) instead of
    returning 200; nothing is appended. *)
Lemma chat_valid_request_completion_down :
  dict_get hello_request "session_id" = Some "s1"
  /\ dict_get hello_request "email" = Some "a@b.com"
  /\ dict_get hello_request "question" = Some "Hello"
  /\ chat completion_down embedded_listings 7 hello_request three_turns
     = (Raise (UpstreamError "completion endpoint unavailable"), three_turns)
  /\ ~ (exists r h',
          chat completion_down embedded_listings 7 hello_request three_turns
          = (Ok r, h')).
Proof.
  repeat split. intros (r & h' & H). discriminate H.
Qed.

(** A session id with a dot in it is a path of two components to the
    database: the turn is stored under [history.v1.2.chat], and the
    session ["v1.2"] still reads as empty. *)
Lemma chat_dotted_session_id :
  exists r h',
    chat demo_services embedded_listings 7 dotted_request [] = (Ok r, h')
    /\ status r = 200
    /\ session_chat h' "a@b.com" "v1.2" = Ok (VArr [])
    /\ record_session_chat
         [("history",
           VDoc [("v1", VDoc [("2",
             VDoc [("chat", VArr [entry "Hello" "Hello, how can I assist you?" 7])])])])]
         "v1" = Ok (VArr [])
    /\ h' = [[("email", VStr "a@b.com");
              ("history",
               VDoc [("v1", VDoc [("2",
                 VDoc [("chat",
                   VArr [entry "Hello" "Hello, how can I assist you?" 7])])])])]].
Proof.
  eexists. eexists. repeat split.
Qed.

(** An empty completion is returned as it is: the response of a 200 can
    be the empty string. *)
Lemma chat_empty_completion :
  chat {| handler_generate_embedding := handler_generate_embedding demo_services;
          similarity := dot_product;
          search_fault := None;
          index_name := "vector_index";
          complete := fun _ _ => Ok EmptyString;
          embedding_create := embedding_create demo_services;
          py_repr := py_repr demo_services;
          str_other := str_other demo_services |}
    embedded_listings 7 hello_request []
  = (Ok (jsonify [("response", VStr EmptyString)] 200),
     [[("email", VStr "a@b.com");
       ("history", VDoc [("s1", VDoc [("chat", VArr [entry "Hello" EmptyString 7])])])]]).
Proof. reflexivity. Qed.

(** C9 on a collection with one null embedding and a generator that is
    down. *)
Lemma generate_and_save_embeddings_aborts_sample :
  In pending_row (rows (load_data pending_listings))
  /\ lookup "embedding" pending_row = Some VNull
  /\ exists e' t,
       generate_and_save_embeddings embedding_down pending_listings
       = (Raise e', pending_listings, t)
       /\ writes t = [].
Proof.
  assert (Hin : In pending_row (rows (load_data pending_listings))).
  { right. left. reflexivity. }
  split; [exact Hin|]. split; [reflexivity|].
  exact (generate_and_save_embeddings_aborts embedding_down pending_listings
           pending_row (UpstreamError "embedding endpoint unavailable")
           Hin eq_refl eq_refl).
Defined.

(** C4 on three embedded listings. *)
Lemma generate_and_save_embeddings_all_embedded_sample :
  forallb has_embedding embedded_listings = true
  /\ exists t,
       generate_and_save_embeddings demo_services embedded_listings
       = (Ok "Embeddings generated and saved successfully where needed.",
          embedded_listings, t)
       /\ calls t = []
       /\ writes t
          = map (fun d => UpdateOne (cell "_id" d) (cell "embedding" d))
              embedded_listings.
Proof.
  split; [reflexivity|].
  apply (generate_and_save_embeddings_all_embedded demo_services embedded_listings).
  - discriminate.
  - reflexivity.
  - reflexivity.
Defined.

(** C4 as stated fails: every record carries an embedding, and the job
    still issues three write operations, one per record. *)
Lemma generate_and_save_embeddings_writes_anyway :
  forallb has_embedding embedded_listings = true
  /\ writes (snd (generate_and_save_embeddings demo_services embedded_listings))
     = [UpdateOne (VOid 1) (VArr [VFloat 1; VFloat 0]);
        UpdateOne (VOid 2) (VArr [VFloat (1 # 2); VFloat (1 # 2)]);
        UpdateOne (VOid 3) (VArr [VFloat 0; VFloat 1])]
  /\ writes (snd (generate_and_save_embeddings demo_services embedded_listings))
     <> [].
Proof.
  repeat split. discriminate.
Qed.

(** C5, where the attribute is absent.  On a collection in which no
    record has the attribute the job raises KeyError before it calls the
    generator; beside a record that has it, a record without it gets NaN
    written as its embedding, and the generator is not called either. *)
Theorem generate_and_save_embeddings_absent_attribute :
  generate_and_save_embeddings demo_services fresh_listings
  = (Raise (KeyError "embedding"), fresh_listings, [])
  /\ generate_and_save_embeddings demo_services mixed_listings
     = (Ok "Embeddings generated and saved successfully where needed.",
        [listing 1 "2BHK in Vijay Nagar" [1; 0]%Q;
         [("_id", VOid 2); ("text", VStr "3BHK in Palasia"); ("embedding", VNaN)]],
        [UpdateOne (VOid 1) (VArr [VFloat 1; VFloat 0]); UpdateOne (VOid 2) VNaN]).
Proof.
  split; reflexivity.
Qed.

(** The handler's own job, which tests [row.get('embedding')], embeds
    the records of the same collection. *)
Lemma embedd_and_update_mongo_absent_attribute :
  embedd_and_update_mongo demo_services (fetch_data fresh_listings) fresh_listings
  = (Printed "Embeddings generated and updated in MongoDB successfully.",
     [[("_id", VOid 1); ("text", VStr "2BHK in Vijay Nagar");
       ("embedding", VArr [VFloat 1; VFloat 0])];
      [("_id", VOid 2); ("text", VStr "3BHK in Palasia");
       ("embedding", VArr [VFloat 1; VFloat 0])]],
     [EmbeddingCall "... 2BHK in Vijay Nagar";
      EmbeddingCall "... 3BHK in Palasia";
      UpdateOne (VOid 1) (VArr [VFloat 1; VFloat 0]);
      UpdateOne (VOid 2) (VArr [VFloat 1; VFloat 0])]).
Proof. reflexivity. Qed.

(** A null embedding beside a record without the attribute: pandas turns
    the column into floats, the null into NaN, and the job writes NaN to
    both records without calling the generator. *)
Lemma generate_and_save_embeddings_null_lost :
  generate_and_save_embeddings demo_services null_and_bare_listings
  = (Ok "Embeddings generated and saved successfully where needed.",
     [[("_id", VOid 1); ("text", VStr "2BHK in Vijay Nagar"); ("embedding", VNaN)];
      [("_id", VOid 2); ("text", VStr "3BHK in Palasia"); ("embedding", VNaN)]],
     [UpdateOne (VOid 1) VNaN; UpdateOne (VOid 2) VNaN]).
Proof. reflexivity. Qed.

(** With a null embedding beside a vector, the generator is called for
    the null record only. *)
Lemma generate_and_save_embeddings_pending :
  generate_and_save_embeddings demo_services pending_listings
  = (Ok "Embeddings generated and saved successfully where needed.",
     [listing 1 "2BHK in Vijay Nagar" [1; 0]%Q;
      listing 2 "3BHK in Palasia" [1 # 2; 1 # 2]%Q],
     [EmbeddingCall "... 3BHK in Palasia None";
      UpdateOne (VOid 1) (VArr [VFloat 1; VFloat 0]);
      UpdateOne (VOid 2) (VArr [VFloat (1 # 2); VFloat (1 # 2)])]).
Proof. reflexivity. Qed.

(** The retrieval query on the sample listings: the two closest of three,
    closest first, [_id] and [text] only. *)
Lemma get_query_results_sample :
  get_query_results demo_services embedded_listings "2BHK" (Some 2)
  = Ok [[("_id", VOid 1); ("text", VStr "2BHK in Vijay Nagar")];
        [("_id", VOid 2); ("text", VStr "3BHK in Palasia")]].
Proof. reflexivity. Qed.

(* ================================================================== *)
(** * More on the history store *)
(* ================================================================== *)

(** [fetch_chat_history] in terms of the stored history, whatever is
    stored. *)
Lemma fetch_chat_history_of_session_chat
  (h : collection) (email session_id : string) (limit : option Z) :
  fetch_chat_history h email session_id limit
  = match session_chat h email session_id with
    | Ok (VArr l) =>
        Ok (slice_from (- match limit with Some n => n | None => 10 end) l)
    | Ok _ => Raise TypeError
    | Raise e => Raise e
    end.
Proof.
  unfold session_chat, record_session_chat, fetch_chat_history.
  destruct (find_one "email" (VStr email) h) as [[|f record]|].
  - now rewrite slice_from_nil.
  - destruct (py_get (VDoc (f :: record)) "history" (VDoc [])) as [hist|]; simpl;
      [|reflexivity].
    destruct (py_get hist session_id (VDoc [])) as [sess|]; simpl; [|reflexivity].
    destruct (py_get sess "chat" (VArr [])) as [c|]; simpl; [|reflexivity].
    now destruct c.
  - now rewrite slice_from_nil.
Qed.

(** The update of the first match, with what is known of the match. *)
Lemma update_first_ok_match (p : doc -> bool) (f : doc -> result doc)
  (c c' : collection) :
  update_first p f c = Some (Ok c') ->
  exists c1 d d' c2,
    c = c1 ++ d :: c2 /\ c' = c1 ++ d' :: c2
    /\ f d = Ok d' /\ p d = true /\ find p c1 = None.
Proof.
  revert c'. induction c as [|x c IH]; simpl; intros c'; [discriminate|].
  destruct (p x) eqn:Px.
  - destruct (f x) as [x'|] eqn:E; simpl; [|discriminate].
    intros [= <-]. now exists [], x, x', c.
  - destruct (update_first p f c) as [[r|]|]; simpl; try discriminate.
    intros [= <-].
    destruct (IH r eq_refl) as (c1 & d & d' & c2 & -> & -> & Hf & Hp & Hn).
    exists (x :: c1), d, d', c2. simpl. now rewrite Px.
Qed.

Lemma update_first_some_find (p : doc -> bool) (f : doc -> result doc)
  (c : collection) (r : result collection) :
  update_first p f c = Some r -> exists d, find p c = Some d.
Proof.
  revert r. induction c as [|x c IH]; simpl; intros r; [discriminate|].
  destruct (p x); [now exists x|].
  destruct (update_first p f c) as [r'|]; [|discriminate].
  intros _. now apply (IH r').
Qed.

(** A record matched by an email filter has an [email] field. *)
Lemma matches_email_field (email : string) (d : doc) :
  matches_eq "email" (VStr email) d = true ->
  exists v, lookup "email" d = Some v.
Proof.
  unfold matches_eq. destruct (lookup "email" d) as [v|]; [now exists v|].
  discriminate.
Qed.

(** The update path of a session id: [history] first, then the
    components of the id and [chat]. *)
Lemma history_path_head (session_id : string) :
  split_on "." ("history." ++ session_id ++ ".chat")
  = "history" :: split_on "." (session_id ++ ".chat").
Proof.
  change ("history." ++ session_id ++ ".chat")%string
    with ("history" ++ String "." (session_id ++ ".chat"))%string.
  now rewrite split_on_append.
Qed.

(** The first component of a dotted id is not the id. *)
Lemma split_on_dotted (s t : string) :
  contains "." s = true ->
  exists k rest, split_on "." (s ++ t) = k :: rest /\ k <> s.
Proof.
  induction s as [|a s IH]; simpl; [discriminate|].
  destruct (Ascii.eqb a ".") eqn:E; simpl.
  - intros _. eexists. eexists. split; [reflexivity|discriminate].
  - intros H. destruct (IH H) as (k & rest & Hk & Hne).
    rewrite Hk. exists (String a k), rest. split; [reflexivity|].
    intros [= Heq]. contradiction.
Qed.

(** What a saved message does to the collection: the record of the email
    is replaced where it stands by one with the same [email] field, or, if
    there is none, a record of that email is added at the end. *)
Lemma save_message_shape (h h' : collection) (now : Z)
  (session_id question answer email : string) :
  save_message_to_mongo now session_id question answer email h = Ok h' ->
  let path := "history" :: split_on "." (session_id ++ ".chat") in
  let m := entry question answer now in
  (exists c1 d d' c2,
     h = c1 ++ d :: c2 /\ h' = c1 ++ d' :: c2
     /\ push_at path m d = Ok d'
     /\ matches_eq "email" (VStr email) d = true
     /\ find (matches_eq "email" (VStr email)) c1 = None)
  \/ (exists d',
        h' = h ++ [d']
        /\ push_at path m [("email", VStr email)] = Ok d'
        /\ find (matches_eq "email" (VStr email)) h = None).
Proof.
  unfold save_message_to_mongo, update_one_push.
  rewrite history_path_head.
  destruct (negb _); [discriminate|].
  fold (entry question answer now).
  destruct (update_first _ _ h) as [[c'|]|] eqn:E; try discriminate.
  - intros [= <-]. left. exact (update_first_ok_match _ _ _ _ E).
  - intros H. right.
    destruct (push_at _ _ [("email", VStr email)]) as [d'|] eqn:Hf; [|discriminate].
    simpl in H. injection H as <-. exists d'. repeat split; try assumption.
    destruct (find (matches_eq "email" (VStr email)) h) as [d|] eqn:Hfind;
      [|reflexivity].
    (* a match would have been updated, or would have refused the update *)
    destruct (push_at ("history" :: split_on "." (session_id ++ ".chat"))
                (entry question answer now) d) as [d1|e1] eqn:Hp.
    + destruct (update_first_found _ _ _ _ _ Hfind Hp) as (c1 & c2 & _ & _ & Hu).
      congruence.
    + pose proof (update_first_refused _ _ _ _ _ Hfind Hp). congruence.
Qed.

(** A saved message changes the record of its email only: the record
    found for any other email is the one found before. *)
Lemma save_message_other_email (h h' : collection) (now : Z)
  (session_id question answer email e' : string) :
  identity_records h = true ->
  save_message_to_mongo now session_id question answer email h = Ok h' ->
  e' <> email ->
  find_one "email" (VStr e') h' = find_one "email" (VStr e') h.
Proof.
  intros Hid Hsave Hne.
  assert (Hneq : String.eqb e' email = false).
  { destruct (String.eqb e' email) eqn:E; [|reflexivity].
    apply String.eqb_eq in E. contradiction. }
  unfold find_one.
  destruct (save_message_shape _ _ _ _ _ _ _ Hsave)
    as [(c1 & d & d' & c2 & -> & -> & Hpush & Hm & _)|(d' & -> & Hpush & _)].
  - pose proof (push_at_other_fields _ _ _ _ _ "email" Hpush) as Hmail.
    rewrite identity_records_app in Hid. apply andb_true_iff in Hid as [_ Hid].
    simpl in Hid. apply andb_true_iff in Hid as [Hd _].
    destruct (lookup "email" d) as [[]|] eqn:El; try discriminate.
    rewrite (matches_eq_str _ email _ _ El) in Hm. apply String.eqb_eq in Hm.
    subst s. rewrite !find_app. simpl.
    rewrite (matches_eq_str _ e' _ _ El).
    rewrite (matches_eq_str "email" e' email d'); [|now rewrite Hmail].
    now rewrite Hneq.
  - pose proof (push_at_other_fields _ _ _ _ _ "email" Hpush) as Hmail.
    rewrite find_app. simpl.
    rewrite (matches_eq_str "email" e' email d'); [|now rewrite Hmail].
    rewrite Hneq. now destruct (find _ h).
Qed.

(** A push below [history.<k>] leaves every other session of the record
    as it reads. *)
Lemma push_history_other_session (k : string) (rest : list string) (m : value)
  (d d' : doc) (session_id : string) :
  push_at ("history" :: k :: rest) m d = Ok d' ->
  session_id <> k ->
  record_session_chat d' session_id = record_session_chat d session_id.
Proof.
  intros H Hne. unfold record_session_chat.
  change (push_at ("history" :: k :: rest) m d)
    with (match lookup "history" d with
          | None =>
              sub' <- push_at (k :: rest) m [] ;; Ok (set_field "history" (VDoc sub') d)
          | Some (VDoc sub) =>
              sub' <- push_at (k :: rest) m sub ;;
              Ok (set_field "history" (VDoc sub') d)
          | Some _ => Raise (WriteError "cannot create field in element")
          end) in H.
  destruct (lookup "history" d) as [hv|] eqn:Eh.
  - destruct hv; try discriminate.
    destruct (push_at (k :: rest) m d0) as [sub'|] eqn:Hp; [|discriminate].
    simpl in H. injection H as <-. simpl.
    rewrite lookup_set_field_same, Eh. simpl.
    now rewrite (push_at_other_fields _ _ _ _ _ session_id Hp).
  - destruct (push_at (k :: rest) m []) as [sub'|] eqn:Hp; [|discriminate].
    simpl in H. injection H as <-. simpl.
    rewrite lookup_set_field_same, Eh. simpl.
    now rewrite (push_at_other_fields _ _ _ _ _ session_id Hp).
Qed.

(** A message saved under a session id that holds a dot is stored where
    the read path does not look: the session reads as before. *)
Lemma save_message_dotted (h h' : collection) (now : Z)
  (session_id question answer email : string) :
  contains "." session_id = true ->
  save_message_to_mongo now session_id question answer email h = Ok h' ->
  session_chat h' email session_id = session_chat h email session_id.
Proof.
  intros Hdot Hsave.
  destruct (split_on_dotted session_id ".chat" Hdot) as (k & rest & Hsplit & Hk).
  assert (Hk' : session_id <> k) by congruence.
  destruct (save_message_shape _ _ _ _ _ _ _ Hsave)
    as [(c1 & d & d' & c2 & -> & -> & Hpush & Hm & Hc1)|(d' & -> & Hpush & Hnone)];
    rewrite Hsplit in Hpush;
    pose proof (push_at_other_fields _ _ _ _ _ "email" Hpush) as Hmail.
  - destruct (matches_email_field _ _ Hm) as (v & Hv).
    assert (Hfind : find_one "email" (VStr email) (c1 ++ d :: c2) = Some d).
    { unfold find_one. rewrite find_app, Hc1. simpl. now rewrite Hm. }
    assert (Hfind' : find_one "email" (VStr email) (c1 ++ d' :: c2) = Some d').
    { unfold find_one. rewrite find_app, Hc1. simpl.
      rewrite (matches_eq_same_field "email" (VStr email) d d'); [now rewrite Hm|].
      now apply Hmail. }
    rewrite (session_chat_found _ _ session_id _ v Hfind Hv).
    rewrite (session_chat_found _ _ session_id _ v Hfind'); [|now rewrite Hmail].
    exact (push_history_other_session _ _ _ _ _ _ Hpush Hk').
  - assert (Hfind' : find_one "email" (VStr email) (h ++ [d']) = Some d').
    { unfold find_one. rewrite find_app, Hnone. simpl.
      rewrite (matches_eq_str "email" email email d'); [|now rewrite Hmail].
      now rewrite String.eqb_refl. }
    rewrite (session_chat_found _ _ session_id _ (VStr email) Hfind');
      [|now rewrite Hmail].
    rewrite (session_chat_not_found h email session_id Hnone).
    now rewrite (push_history_other_session _ _ _ _ _ _ Hpush Hk').
Qed.

Section ChatMore.

Variable S : services.
Variable properties : collection.
Variable now : Z.

(** What a call of the handler does to the history collection: nothing,
    or the one save of [generate_answer]. *)
Lemma chat_collection_after (data : json_object) (h h' : collection)
  (r : result response) :
  chat S properties now data h = (r, h') ->
  h' = h
  \/ (exists answer,
        save_message_to_mongo now (the_str (dict_get data "session_id"))
          (the_str (dict_get data "question")) answer
          (the_str (dict_get data "email")) h = Ok h').
Proof.
  unfold chat.
  destruct (negb _ || negb _ || negb _).
  - intros [= _ <-]. now left.
  - unfold st_bind. rewrite generate_answer_cases.
    destruct (fetch_chat_history h _ _ None) as [hist|];
      [|intros [= _ <-]; now left].
    destruct (mapM (format_turn S) hist) as [turns|];
      [|intros [= _ <-]; now left].
    destruct (get_query_results S properties _ None) as [docs|];
      [|intros [= _ <-]; now left].
    destruct (complete S _ _) as [answer|]; [|intros [= _ <-]; now left].
    destruct (save_message_to_mongo _ _ _ _ _ h) as [h1|] eqn:Hs;
      [|intros [= _ <-]; now left].
    intros [= _ <-]. right. now exists answer.
Qed.

(** X4. No request changes what another user reads: after a call of the
    handler for one email, on a collection of identity records,
    [fetch_chat_history] returns for every other email, every session and
    every limit what it returned before, whatever the session id of the
    request and however the call ended. *)
Theorem chat_other_emails_untouched
  (data : json_object) (h h' : collection) (r : result response)
  (email e' session_id : string) (limit : option Z) :
  identity_records h = true ->
  dict_get data "email" = Some email ->
  chat S properties now data h = (r, h') ->
  e' <> email ->
  fetch_chat_history h' e' session_id limit
  = fetch_chat_history h e' session_id limit.
Proof.
  intros Hid Hmail Hchat Hne.
  destruct (chat_collection_after _ _ _ _ Hchat) as [->|(answer & Hsave)];
    [reflexivity|].
  rewrite Hmail in Hsave. simpl in Hsave.
  unfold fetch_chat_history.
  now rewrite (save_message_other_email _ _ _ _ _ _ _ e' Hid Hsave Hne).
Qed.

(** X5. A session id with a dot in it cannot be read back: whatever a
    call of the handler with such an id does, [fetch_chat_history] for
    that email and that id returns what it returned before, so the turn
    that was answered is not part of the history of the next request. *)
Theorem chat_dotted_session_not_read_back
  (data : json_object) (h h' : collection) (r : result response)
  (email session_id : string) (limit : option Z) :
  contains "." session_id = true ->
  dict_get data "session_id" = Some session_id ->
  dict_get data "email" = Some email ->
  chat S properties now data h = (r, h') ->
  fetch_chat_history h' email session_id limit
  = fetch_chat_history h email session_id limit.
Proof.
  intros Hdot Hsid Hmail Hchat.
  destruct (chat_collection_after _ _ _ _ Hchat) as [->|(answer & Hsave)];
    [reflexivity|].
  rewrite Hsid, Hmail in Hsave. simpl in Hsave.
  rewrite !fetch_chat_history_of_session_chat.
  now rewrite (save_message_dotted _ _ _ _ _ _ _ Hdot Hsave).
Qed.

End ChatMore.

(** X6. What is saved is read back.  After [save_message_to_mongo] into a
    readable session with a plain id, [fetch_chat_history] with a positive
    limit returns a list that ends with the saved entry, preceded by the
    most recent [limit - 1] of the entries stored before, in their
    order. *)
Theorem saved_message_read_back (h : collection) (now limit : Z)
  (session_id question answer email : string) (old : list value) :
  plain_key session_id = true ->
  identity_records h = true ->
  session_chat h email session_id = Ok (VArr old) ->
  0 < limit ->
  exists h' older recent,
    save_message_to_mongo now session_id question answer email h = Ok h'
    /\ fetch_chat_history h' email session_id (Some limit)
       = Ok (recent ++ [entry question answer now])
    /\ old = older ++ recent
    /\ Z.of_nat (List.length recent) = Z.min (limit - 1) (Z.of_nat (List.length old)).
Proof.
  intros Hkey Hid Hold Hlimit.
  destruct (save_message_appends h now session_id question answer email old
              Hkey Hid Hold) as (h' & Hsave & Hnew & _ & _).
  exists h', (firstn (List.length old - Z.to_nat (limit - 1)) old),
    (skipn (List.length old - Z.to_nat (limit - 1)) old).
  split; [exact Hsave|]. split; [|split].
  - rewrite (fetch_chat_history_session_chat _ _ _ (Some limit) _ Hnew).
    f_equal.
    rewrite slice_last_positive by lia. rewrite length_app, skipn_app. simpl.
    replace (List.length old + 1 - Z.to_nat limit)%nat
      with (List.length old - Z.to_nat (limit - 1))%nat by lia.
    replace (List.length old - Z.to_nat (limit - 1) - List.length old)%nat
      with 0%nat by lia.
    reflexivity.
  - symmetry. apply firstn_skipn.
  - rewrite length_skipn. lia.
Qed.

Section ContextWindow.

Variable S : services.
Variable properties : collection.
Variable now : Z.

(** X7. The reply depends on the last ten turns only.  Two history
    collections whose session holds the same ten most recent entries,
    whatever stands before them, get the same outcome from
    [generate_answer]: the same reply, or the same exception. *)
Theorem generate_answer_last_ten_turns
  (user_input email session_id : string) (h1 h2 : collection)
  (older1 older2 recent : list value) :
  plain_key session_id = true ->
  identity_records h1 = true ->
  identity_records h2 = true ->
  session_chat h1 email session_id = Ok (VArr (older1 ++ recent)) ->
  session_chat h2 email session_id = Ok (VArr (older2 ++ recent)) ->
  List.length recent = 10%nat ->
  fst (generate_answer S properties now user_input email session_id h1)
  = fst (generate_answer S properties now user_input email session_id h2).
Proof.
  intros Hkey Hid1 Hid2 Hs1 Hs2 Hlen.
  assert (Hslice : forall older : list value,
             slice_from (- 10) (older ++ recent) = recent).
  { intros older. change (-10) with (Z.opp 10).
    rewrite slice_last_positive by lia.
    rewrite length_app, Hlen.
    replace (List.length older + 10 - Z.to_nat 10)%nat
      with (List.length older + 0)%nat by lia.
    rewrite skipn_app, Nat.add_0_r, skipn_all.
    now replace (List.length older - List.length older)%nat with 0%nat by lia. }
  rewrite !generate_answer_cases.
  assert (Hf1 : fetch_chat_history h1 email session_id None = Ok recent).
  { rewrite (fetch_chat_history_session_chat _ _ _ None _ Hs1).
    f_equal. apply Hslice. }
  assert (Hf2 : fetch_chat_history h2 email session_id None = Ok recent).
  { rewrite (fetch_chat_history_session_chat _ _ _ None _ Hs2).
    f_equal. apply Hslice. }
  rewrite Hf1, Hf2.
  destruct (mapM (format_turn S) recent) as [turns|]; [|reflexivity].
  destruct (get_query_results S properties user_input None) as [docs|];
    [|reflexivity].
  destruct (complete S _ user_input) as [answer|]; [|reflexivity].
  destruct (save_message_appends h1 now session_id user_input answer email _
              Hkey Hid1 Hs1) as (h1' & -> & _).
  destruct (save_message_appends h2 now session_id user_input answer email _
              Hkey Hid2 Hs2) as (h2' & -> & _).
  reflexivity.
Qed.

End ContextWindow.

(* ================================================================== *)
(** * More on the embedding jobs *)
(* ================================================================== *)

Lemma add_key_only (ks acc : list string) (k : string) :
  In k (fold_left
          (fun acc k => if existsb (String.eqb k) acc then acc else acc ++ [k])
          ks acc) ->
  In k acc \/ In k ks.
Proof.
  revert acc. induction ks as [|k0 ks IH]; intros acc H; simpl in *; [now left|].
  destruct (IH _ H) as [Hacc|Hks]; [|right; now right].
  destruct (existsb (String.eqb k0) acc); [now left|].
  apply in_app_or in Hacc as [Hacc|[<-|[]]]; [now left|right; now left].
Qed.

(** A column of the frame is a key of some record. *)
Lemma columns_of_only_keys (c : collection) (k : string) :
  In k (columns_of c) -> exists d, In d c /\ In k (map fst d).
Proof.
  unfold columns_of.
  assert (H : forall seen, In k (fold_left add_keys c seen) ->
                In k seen \/ exists d, In d c /\ In k (map fst d)).
  { induction c as [|d c IH]; intros seen Hin; simpl in *; [now left|].
    destruct (IH _ Hin) as [Hs|(d' & Hd' & Hk)].
    - unfold add_keys in Hs. destruct (add_key_only _ _ _ Hs) as [H1|H2];
        [now left|right; exists d; split; [now left|exact H2]].
    - right. exists d'. split; [now right|exact Hk]. }
  intros Hin. destruct (H [] Hin) as [[]|Hex]. exact Hex.
Qed.

Lemma lookup_none_key (k : string) (d : doc) :
  lookup k d = None -> ~ In k (map fst d).
Proof.
  induction d as [|[k' v'] d IH]; simpl; [tauto|].
  destruct (String.eqb k k') eqn:E; [discriminate|].
  intros H [Hk|Hk].
  - subst. now rewrite String.eqb_refl in E.
  - now apply IH.
Qed.

Lemma lookup_not_column (f : string -> value) (cols : list string) (k : string) :
  ~ In k cols -> lookup k (map (fun k => (k, f k)) cols) = None.
Proof.
  induction cols as [|k0 cols IH]; simpl; [reflexivity|].
  intros H. destruct (String.eqb k k0) eqn:E.
  - apply String.eqb_eq in E. subst. exfalso. apply H. now left.
  - apply IH. intros Hin. apply H. now right.
Qed.

(** When no record has the key, no row has the label. *)
Lemma row_without_column (c : collection) (d : doc) (k : string) :
  (forall d', In d' c -> lookup k d' = None) ->
  lookup k (row_of c (columns_of c) d) = None.
Proof.
  intros H. unfold row_of. apply lookup_not_column.
  intros Hin. destruct (columns_of_only_keys _ _ Hin) as (d' & Hd' & Hk).
  exact (lookup_none_key _ _ (H d' Hd') Hk).
Qed.

(** The pass of [df.apply] issues no write when the lambda issues none. *)
Lemma df_apply_no_write (f : doc -> result value * list event) (rows : list doc) :
  (forall row, writes (snd (f row)) = []) ->
  writes (snd (df_apply f rows)) = [].
Proof.
  intros Hf. induction rows as [|row rows IH]; [reflexivity|]. simpl.
  pose proof (Hf row) as Hrow.
  destruct (f row) as [[v|e] t]; simpl in *; [|exact Hrow].
  destruct (df_apply f rows) as [[vs|e] t']; simpl in *;
    unfold writes in *; now rewrite filter_app, Hrow, IH.
Qed.

(** A row on which the lambda raises ends the pass with an exception. *)
Lemma df_apply_raises (f : doc -> result value * list event) (rows : list doc)
  (row : doc) (e : exn) :
  In row rows -> fst (f row) = Raise e ->
  exists e', fst (df_apply f rows) = Raise e'.
Proof.
  induction rows as [|r rows IH]; simpl; [contradiction|].
  intros [->|Hin] He.
  - destruct (f row) as [[v|e0] t]; simpl in *; [discriminate|]. now exists e0.
  - destruct (f r) as [[v|e0] t]; simpl; [|now exists e0].
    destruct (IH Hin He) as (e' & He').
    destruct (df_apply f rows) as [[vs|e1] t']; simpl in *; [discriminate|].
    now exists e1.
Qed.

Lemma df_apply_length (f : doc -> result value * list event) (rows : list doc)
  (cells : list value) (t : list event) :
  df_apply f rows = (Ok cells, t) -> List.length cells = List.length rows.
Proof.
  revert cells t. induction rows as [|row rows IH]; simpl; intros cells t.
  - now intros [= <- _].
  - destruct (f row) as [[v|e] t0]; [|discriminate].
    destruct (df_apply f rows) as [[vs|e] t'] eqn:E; [|discriminate].
    intros [= <- _]. simpl. f_equal. now apply (IH vs t').
Qed.

(** Writing back to every record the embedding it has changes nothing. *)
Lemma assign_own_cells (c : collection) :
  (forall d, In d c -> exists v, lookup "embedding" d = Some v) ->
  map (fun p => set_field "embedding" (snd p) (fst p))
    (combine c (map (cell "embedding") c)) = c.
Proof.
  induction c as [|d c IH]; intros H; [reflexivity|]. simpl.
  rewrite IH by (intros d' Hd'; apply H; now right). f_equal.
  destruct (H d (or_introl eq_refl)) as (v & Hv).
  apply set_field_same. unfold cell. now rewrite Hv.
Qed.

Lemma update_events_own_cells (c : collection) :
  map (fun p => UpdateOne (cell "_id" (fst p)) (snd p))
    (combine c (map (cell "embedding") c))
  = map (fun d => UpdateOne (cell "_id" d) (cell "embedding" d)) c.
Proof.
  induction c as [|d c IH]; [reflexivity|]. simpl. now rewrite IH.
Qed.

Lemma forall2_map_self {A B} (R : A -> B -> Prop) (f : A -> B) (l : list A) :
  (forall x, In x l -> R x (f x)) -> Forall2 R l (map f l).
Proof.
  induction l as [|x l IH]; intros H; simpl; constructor.
  - apply H. now left.
  - apply IH. intros y Hy. apply H. now right.
Qed.

Lemma map_combine_cells (c : collection) :
  map (fun p => set_field "embedding" (snd p) (fst p))
    (combine c (map (cell "embedding") c))
  = map (fun d => set_field "embedding" (cell "embedding" d) d) c.
Proof.
  induction c as [|d c IH]; [reflexivity|]. simpl. now rewrite IH.
Qed.

Section JobMore.

Variable S : services.

(** The run of the job when no record has the attribute. *)
Lemma generate_and_save_embeddings_no_attribute_run (c : collection) :
  c <> [] ->
  (forall d, In d c -> exists id, lookup "_id" d = Some id) ->
  (forall d, In d c -> lookup "embedding" d = None) ->
  generate_and_save_embeddings S c = (Raise (KeyError "embedding"), c, []).
Proof.
  intros Hne Hid Hnone.
  destruct c as [|d0 c0] eqn:Ec; [contradiction|]. rewrite <- Ec in *.
  assert (Hin0 : In d0 c) by (rewrite Ec; now left).
  destruct (Hid d0 Hin0) as (id0 & Hid0).
  unfold generate_and_save_embeddings.
  rewrite (df_not_empty c d0 "_id" id0 Hin0 Hid0).
  unfold load_data. simpl rows. rewrite Ec at 3. simpl.
  unfold embed_row, series_item.
  now rewrite (row_without_column c d0 "embedding" Hnone).
Qed.

(** X8. On a collection in which no record has the [embedding]
    attribute, the job of get_embeddings.py raises KeyError on the first
    row: it calls the generator for no record, writes nothing and leaves
    the collection as it was. *)
Theorem generate_and_save_embeddings_no_attribute (c : collection) :
  c <> [] ->
  (forall d, In d c -> exists id, lookup "_id" d = Some id) ->
  (forall d, In d c -> lookup "embedding" d = None) ->
  generate_and_save_embeddings S c = (Raise (KeyError "embedding"), c, [])
  /\ calls (snd (generate_and_save_embeddings S c)) = []
  /\ writes (snd (generate_and_save_embeddings S c)) = [].
Proof.
  intros Hne Hid Hnone.
  rewrite (generate_and_save_embeddings_no_attribute_run c Hne Hid Hnone).
  repeat split.
Qed.

(** Rows without a [None] in the embedding column: the cells are kept
    and the generator is not called. *)
Lemma df_apply_without_null (c docs : collection) :
  In "embedding" (columns_of c) ->
  (forall d, In d docs -> lookup "embedding" d <> Some VNull) ->
  df_apply (embed_row S) (map (row_of c (columns_of c)) docs)
  = (Ok (map (cell "embedding") docs), []).
Proof.
  intros Hcol. induction docs as [|d docs IH]; simpl; intros H; [reflexivity|].
  rewrite IH by (intros d' Hd'; apply H; now right).
  unfold embed_row, series_item. rewrite (row_cell c d "embedding" Hcol).
  assert (Hnn : is_none (cell "embedding" d) = false).
  { pose proof (H d (or_introl eq_refl)) as Hd. unfold cell.
    destruct (lookup "embedding" d) as [[]|]; try reflexivity. congruence. }
  rewrite (infer_not_none _ _ Hnn).
  destruct (cell "embedding" d); try reflexivity. discriminate.
Qed.

(** The run of the job on a collection without a null embedding. *)
Lemma job_without_null (c : collection) (d0 : doc) (v0 : value) :
  unique_ids c = true ->
  In d0 c -> lookup "embedding" d0 = Some v0 ->
  (forall d, In d c -> lookup "embedding" d <> Some VNull) ->
  generate_and_save_embeddings S c
  = (Ok "Embeddings generated and saved successfully where needed.",
     map (fun d => set_field "embedding" (cell "embedding" d) d) c,
     map (fun d => UpdateOne (cell "_id" d) (cell "embedding" d)) c).
Proof.
  intros Hu Hin0 Hv0 Hnn.
  assert (Hne : c <> []) by (intros ->; contradiction).
  pose proof (columns_of_key c d0 "embedding" v0 Hin0 Hv0) as Hcol.
  pose proof (df_apply_without_null c c Hcol Hnn) as Hpass.
  rewrite (job_after_pass S c _ _ Hne Hu Hpass).
  now rewrite map_combine_cells, update_events_own_cells.
Qed.

(** X9. A record without the attribute beside records with vectors is
    not embedded.  On a collection with unique ids in which some record
    carries a vector and every other record carries one or lacks the
    attribute, the job reports success without one generator call; the
    records with a vector are left as they are, and every record that
    lacks the attribute gets NaN written as its embedding. *)
Theorem generate_and_save_embeddings_without_null
  (c : collection) (d0 : doc) :
  unique_ids c = true ->
  In d0 c -> has_embedding d0 = true ->
  (forall d, In d c -> has_embedding d = true \/ lookup "embedding" d = None) ->
  exists c' t,
    generate_and_save_embeddings S c
    = (Ok "Embeddings generated and saved successfully where needed.", c', t)
    /\ calls t = []
    /\ Forall2
         (fun d d' =>
            if has_embedding d then d' = d
            else d' = set_field "embedding" VNaN d) c c'.
Proof.
  intros Hu Hin0 Hv0 Hall.
  assert (Hnn : forall d, In d c -> lookup "embedding" d <> Some VNull).
  { intros d Hd. destruct (Hall d Hd) as [H|H].
    - unfold has_embedding in H. destruct (lookup "embedding" d) as [[]|];
        discriminate.
    - rewrite H. discriminate. }
  unfold has_embedding in Hv0.
  destruct (lookup "embedding" d0) as [v0|] eqn:E0; [|discriminate].
  rewrite (job_without_null c d0 v0 Hu Hin0 E0 Hnn).
  eexists. eexists. split; [reflexivity|]. split.
  - clear. induction c as [|d c IH]; [reflexivity|]. exact IH.
  - apply forall2_map_self. intros d Hd. unfold cell.
    destruct (Hall d Hd) as [H|H].
    + rewrite H. unfold has_embedding in H.
      destruct (lookup "embedding" d) as [v|] eqn:E; [|discriminate].
      now apply set_field_same.
    + unfold has_embedding. now rewrite H.
Qed.

(* ------------------------------------------------------------------ *)
(** ** A second run *)

Lemma df_apply_known_vectors (c docs : collection) :
  In "embedding" (columns_of c) ->
  keeps_none (map (cell "embedding") c) = true ->
  forallb embedding_known docs = true ->
  (forall d, In d docs -> lookup "embedding" d = Some VNull ->
     exists l, generate_embedding S (row_text S (row_of c (columns_of c) d))
               = Ok (VArr l)) ->
  exists cells t,
    df_apply (embed_row S) (map (row_of c (columns_of c)) docs) = (Ok cells, t)
    /\ Forall (fun v => exists l, v = VArr l) cells.
Proof.
  intros Hcol Hkeep. induction docs as [|d docs IH]; simpl; intros Hknown Hgen.
  - exists [], []. split; [reflexivity|constructor].
  - apply andb_true_iff in Hknown as [Hd Hdocs].
    destruct (IH Hdocs) as (cells & t & Hpass & Hvec).
    { intros d' Hin. apply Hgen. now right. }
    rewrite Hpass.
    unfold embed_row, series_item. rewrite (row_cell c d "embedding" Hcol).
    unfold embedding_known in Hd.
    destruct (lookup "embedding" d) as [x|] eqn:E; [|discriminate].
    assert (Hcell : cell "embedding" d = x) by (unfold cell; now rewrite E).
    rewrite Hcell.
    destruct x; try discriminate.
    + unfold infer. rewrite Hkeep. simpl.
      destruct (Hgen d (or_introl eq_refl) E) as (l & Hl).
      rewrite Hl. exists (VArr l :: cells). eexists. split; [reflexivity|].
      constructor; [now exists l|exact Hvec].
    + rewrite infer_not_none by reflexivity.
      exists (VArr l :: cells), t. split; [reflexivity|].
      constructor; [now exists l|exact Hvec].
Qed.

Lemma assigned_vectors (docs : collection) (cells : list value) :
  List.length cells = List.length docs ->
  Forall (fun v => exists l, v = VArr l) cells ->
  let c' := map (fun p => set_field "embedding" (snd p) (fst p))
              (combine docs cells) in
  forallb has_embedding c' = true
  /\ map (lookup "_id") c' = map (lookup "_id") docs.
Proof.
  revert cells. induction docs as [|d docs IH]; intros [|v cells] Hlen Hvec;
    try discriminate; simpl; [now split|].
  injection Hlen as Hlen. inversion Hvec as [|? ? (l & ->) Hvec']; subst.
  destruct (IH cells Hlen Hvec') as [H1 H2]. simpl in H1, H2.
  split.
  - rewrite H1, andb_true_r. unfold has_embedding.
    now rewrite lookup_set_field_same.
  - rewrite H2. f_equal. now apply lookup_set_field_other.
Qed.

(** X11. A second run finds nothing to do.  After a run on a collection
    whose records all have the attribute, null or a vector, with a
    generator that answers with vectors, a run on the result calls the
    generator not once and leaves the collection as the first run left
    it. *)
Theorem generate_and_save_embeddings_second_run (c : collection) :
  c <> [] ->
  unique_ids c = true ->
  forallb embedding_known c = true ->
  (forall d, In d c -> lookup "embedding" d = Some VNull ->
     exists l, generate_embedding S (row_text S (row_of c (columns_of c) d))
               = Ok (VArr l)) ->
  exists c' t t',
    generate_and_save_embeddings S c
    = (Ok "Embeddings generated and saved successfully where needed.", c', t)
    /\ generate_and_save_embeddings S c'
       = (Ok "Embeddings generated and saved successfully where needed.", c', t')
    /\ calls t' = [].
Proof.
  intros Hne Hu Hknown Hgen.
  destruct c as [|d0 c0] eqn:Ec; [contradiction|]. rewrite <- Ec in *.
  assert (Hin0 : In d0 c) by (rewrite Ec; now left).
  assert (Hcol : In "embedding" (columns_of c)).
  { pose proof Hknown as Hk. rewrite forallb_forall in Hk. specialize (Hk d0 Hin0).
    unfold embedding_known in Hk.
    destruct (lookup "embedding" d0) as [v|] eqn:E; [|discriminate].
    exact (columns_of_key c d0 "embedding" v Hin0 E). }
  destruct (df_apply_known_vectors c c Hcol
              (keeps_none_known "embedding" c Hknown) Hknown Hgen)
    as (cells & t & Hpass & Hvec).
  pose proof (df_apply_length _ _ _ _ Hpass) as Hlen. rewrite length_map in Hlen.
  rewrite (job_after_pass S c _ _ Hne Hu Hpass).
  set (c' := map (fun p => set_field "embedding" (snd p) (fst p)) (combine c cells)).
  destruct (assigned_vectors c cells Hlen Hvec) as [Hemb Hids]. fold c' in Hemb, Hids.
  assert (Hu' : unique_ids c' = true)
    by (rewrite (unique_ids_same_ids c' c Hids); exact Hu).
  assert (Hne' : c' <> []).
  { intros E. apply (f_equal (@List.length doc)) in E.
    apply (f_equal (@List.length (option value))) in Hids.
    rewrite !length_map in Hids. rewrite Hids, Ec in E. discriminate. }
  destruct c' as [|d1 c1] eqn:Ec'; [contradiction|]. rewrite <- Ec' in *.
  assert (Hin1 : In d1 c') by (rewrite Ec'; now left).
  assert (Hv1 : exists v1, lookup "embedding" d1 = Some v1).
  { rewrite forallb_forall in Hemb. specialize (Hemb d1 Hin1).
    unfold has_embedding in Hemb.
    destruct (lookup "embedding" d1) as [v|]; [now exists v|discriminate]. }
  destruct Hv1 as (v1 & Hv1).
  assert (Hnn : forall d, In d c' -> lookup "embedding" d <> Some VNull).
  { intros d Hd. rewrite forallb_forall in Hemb. specialize (Hemb d Hd).
    unfold has_embedding in Hemb.
    destruct (lookup "embedding" d) as [[]|]; discriminate. }
  exists c', (t ++ map (fun p => UpdateOne (cell "_id" (fst p)) (snd p))
                   (combine c cells)).
  eexists. split; [reflexivity|].
  rewrite (job_without_null c' d1 v1 Hu' Hin1 Hv1 Hnn).
  split.
  - f_equal. f_equal. rewrite <- map_combine_cells. apply assign_own_cells.
    intros d Hd. rewrite forallb_forall in Hemb. specialize (Hemb d Hd).
    unfold has_embedding in Hemb.
    destruct (lookup "embedding" d) as [v|]; [now exists v|discriminate].
  - clear. induction c' as [|d c' IH]; [reflexivity|]. exact IH.
Qed.

End JobMore.

(* ------------------------------------------------------------------ *)
(** ** The handler's own job (mongoembedding.py) *)

Section HandlerJobFacts.

Variable S : services.




(** X13. The handler's job swallows a generator failure.  When the
    generator raises on a row that needs an embedding, the job prints the
    error and returns: the collection is as it was and nothing was
    written. *)
Theorem embedd_and_update_mongo_swallows_failure
  (c : collection) (row : doc) (e : exn) :
  In row (rows (fetch_data c)) ->
  truthy (series_get row "embedding") = false ->
  handler_generate_embedding S (row_text S row) = Raise e ->
  exists e' t,
    embedd_and_update_mongo S (fetch_data c) c
    = (PrintedError "Error generating embeddings: " e', c, t)
    /\ writes t = [].
Proof.
  intros Hrow Hfalsy Hgen.
  assert (Hlam : fst (handler_embed_row S row) = Raise e).
  { unfold handler_embed_row. rewrite Hfalsy. exact Hgen. }
  destruct (df_apply_raises _ _ _ _ Hrow Hlam) as (e' & He').
  assert (Hw : writes (snd (df_apply (handler_embed_row S) (rows (fetch_data c)))) = []).
  { apply df_apply_no_write. intros r. unfold handler_embed_row.
    destruct (truthy (series_get r "embedding")); reflexivity. }
  unfold embedd_and_update_mongo.
  destruct (df_apply (handler_embed_row S) (rows (fetch_data c)))
    as [[cells|e0] t]; simpl in *; [discriminate|].
  now exists e0, t.
Qed.

End HandlerJobFacts.

(* ================================================================== *)
(** * The handler of POST /embed *)
(* ================================================================== *)

Section EmbedFacts.

Variable S : services.

(** X14. The handler of /embed answers with status 400 exactly when the
    request has no collection name or an empty one.  Such a request gets
    the [error] body, no collection is read or written and the generator
    is not called; every other response of the handler has status 200. *)
Theorem embed_collection_name_required (data : json_object) (db : database) :
  (truthy_opt (dict_get data "collection_name") = false ->
   embed_collection S data db
   = (Responded (jsonify [("error", VStr "Collection name is required")] 400),
      db, []))
  /\ (forall (r : response) (db' : database) (t : list event),
        embed_collection S data db = (Responded r, db', t) ->
        truthy_opt (dict_get data "collection_name") = true ->
        status r = 200).
Proof.
  unfold embed_collection. split.
  - intros H. now rewrite H.
  - intros r db' t Hrun Hname. rewrite Hname in Hrun. simpl in Hrun.
    destruct (get_mongo_collection db _) as [c|]; [|discriminate Hrun].
    destruct (generate_and_save_embeddings S c) as [[[result|e] c'] t'].
    + injection Hrun as <- _ _. reflexivity.
    + discriminate Hrun.
Qed.

(** X15. A name the database holds no records for is no error: /embed
    answers 200 with the no-documents message, every collection is as it
    was and the generator is not called. *)
Theorem embed_collection_unknown_name (data : json_object) (db : database)
  (name : string) :
  dict_get data "collection_name" = Some name ->
  valid_collection_name name = true ->
  db name = [] ->
  exists db',
    embed_collection S data db
    = (Responded
         (jsonify [("message", VStr "No documents found in the collection.")] 200),
       db', [])
    /\ forall n, db' n = db n.
Proof.
  intros Hname Hvalid Hempty. unfold embed_collection, get_mongo_collection.
  rewrite Hname. simpl the_str.
  assert (Ht : truthy_opt (Some name) = true).
  { destruct name; [discriminate Hvalid|reflexivity]. }
  rewrite Ht, Hvalid, Hempty. simpl.
  eexists. split; [reflexivity|].
  intros n. unfold db_put. destruct (String.eqb n name) eqn:E; [|reflexivity].
  apply String.eqb_eq in E. now subst.
Qed.

(** X16. The handler catches nothing: on a collection that was never
    embedded (no record has the attribute) the KeyError of the job leaves
    the handler, so the client gets a server error instead of a message;
    every collection is as it was. *)
Theorem embed_collection_fresh_collection (data : json_object) (db : database)
  (name : string) :
  dict_get data "collection_name" = Some name ->
  valid_collection_name name = true ->
  db name <> [] ->
  (forall d, In d (db name) -> exists id, lookup "_id" d = Some id) ->
  (forall d, In d (db name) -> lookup "embedding" d = None) ->
  exists db',
    embed_collection S data db = (Unhandled (KeyError "embedding"), db', [])
    /\ forall n, db' n = db n.
Proof.
  intros Hname Hvalid Hne Hid Hnone. unfold embed_collection, get_mongo_collection.
  rewrite Hname. simpl the_str.
  assert (Ht : truthy_opt (Some name) = true).
  { destruct name; [discriminate Hvalid|reflexivity]. }
  rewrite Ht, Hvalid. simpl.
  rewrite (generate_and_save_embeddings_no_attribute_run S (db name) Hne Hid Hnone).
  eexists. split; [reflexivity|].
  intros n. unfold db_put. destruct (String.eqb n name) eqn:E; [|reflexivity].
  apply String.eqb_eq in E. now subst.
Qed.

End EmbedFacts.

(* ================================================================== *)
(** * The console variant (app.py) *)
(* ================================================================== *)

Lemma str_app_assoc (a b c : string) : ((a ++ b) ++ c = a ++ (b ++ c))%string.
Proof. induction a as [|x a IH]; simpl; [reflexivity|now rewrite IH]. Qed.

Lemma str_app_nil_r (a : string) : (a ++ EmptyString = a)%string.
Proof. induction a as [|x a IH]; simpl; [reflexivity|now rewrite IH]. Qed.

Lemma contains_app (c : ascii) (s t : string) :
  contains c (s ++ t) = contains c s || contains c t.
Proof.
  induction s as [|a s IH]; simpl; [reflexivity|].
  now rewrite IH, orb_assoc.
Qed.

(** Text without carriage return is read as it is. *)
Lemma universal_newlines_clean (t : string) :
  contains "013" t = false -> App.universal_newlines false t = t.
Proof.
  induction t as [|a t IH]; simpl; [reflexivity|].
  intros H. apply orb_false_iff in H as [Ha Ht].
  rewrite Ha. destruct (Ascii.eqb a "010") eqn:E; rewrite (IH Ht);
    [|reflexivity].
  apply Ascii.eqb_eq in E. now subst.
Qed.

(** Text appended to a file is read as it was written, when it holds no
    carriage return and does not start with a line feed. *)
Lemma universal_newlines_app (s : string) (b : bool) (a : ascii) (t : string) :
  Ascii.eqb a "010" = false ->
  contains "013" (String a t) = false ->
  App.universal_newlines b (s ++ String a t)
  = (App.universal_newlines b s ++ String a t)%string.
Proof.
  intros Hlf Hcr. revert b. induction s as [|x s IH]; intros b.
  - simpl in *. apply orb_false_iff in Hcr as [Ha Ht].
    now rewrite Ha, Hlf, (universal_newlines_clean t Ht).
  - simpl. destruct (Ascii.eqb x "013"); [now rewrite IH|].
    destruct (Ascii.eqb x "010"); [destruct b|]; now rewrite IH.
Qed.

(** The lines of a text that goes on: the lines completed so far, then
    the lines of the rest, which start with the line that was open. *)
Lemma split_lines_prefix (s cur : string) :
  exists ls tail,
    forall t, App.split_lines cur (s ++ t) = ls ++ App.split_lines tail t.
Proof.
  revert cur. induction s as [|a s IH]; intros cur.
  - exists [], cur. reflexivity.
  - simpl. destruct (Ascii.eqb a "010").
    + destruct (IH EmptyString) as (ls & tail & H).
      exists ((cur ++ String "010" EmptyString)%string :: ls), tail.
      intros t. now rewrite H.
    + destruct (IH (cur ++ String a EmptyString)%string) as (ls & tail & H).
      exists ls, tail. exact H.
Qed.

(** A line without line feed in it, then a line feed: one line. *)
Lemma split_lines_line (b cur rest : string) :
  contains "010" b = false ->
  App.split_lines cur (b ++ String "010" rest)
  = (cur ++ b ++ String "010" EmptyString)%string
    :: App.split_lines EmptyString rest.
Proof.
  revert cur. induction b as [|a b IH]; intros cur H; simpl.
  - reflexivity.
  - simpl in H. apply orb_false_iff in H as [Ha Hb].
    rewrite Ha, (IH _ Hb). f_equal. now rewrite str_app_assoc.
Qed.

(** The lines of a text put together give the text. *)
Lemma split_lines_concat (s cur : string) :
  App.concat_lines (App.split_lines cur s) = (cur ++ s)%string.
Proof.
  revert cur. induction s as [|a s IH]; intros cur; simpl.
  - destruct cur; simpl; [reflexivity|]. now rewrite !str_app_nil_r.
  - destruct (Ascii.eqb a "010") eqn:E.
    + apply Ascii.eqb_eq in E. subst a. simpl. rewrite IH. simpl.
      now rewrite str_app_assoc.
    + rewrite IH. now rewrite str_app_assoc.
Qed.

(** A text that ends with a line feed has as many lines as line feeds. *)
Lemma split_lines_count (s cur : string) :
  List.length (App.split_lines cur (s ++ String "010" EmptyString))
  = Datatypes.S (count_char "010" s).
Proof.
  revert cur. induction s as [|a s IH]; intros cur; simpl; [reflexivity|].
  destruct (Ascii.eqb a "010"); simpl; now rewrite IH.
Qed.

Lemma concat_lines_app (l1 l2 : list string) :
  App.concat_lines (l1 ++ l2)
  = (App.concat_lines l1 ++ App.concat_lines l2)%string.
Proof.
  induction l1 as [|x l1 IH]; simpl; [reflexivity|].
  now rewrite IH, str_app_assoc.
Qed.

(** The last ten of a list that ends with at most ten given elements end
    with these. *)
Lemma slice_last_ten_suffix {A} (ls tl : list A) :
  (List.length tl <= 10)%nat ->
  exists k, slice_from (- 10) (ls ++ tl) = skipn k ls ++ tl.
Proof.
  intros H. change (-10) with (Z.opp 10). rewrite slice_last_positive by lia.
  rewrite length_app, skipn_app.
  exists (List.length ls + List.length tl - Z.to_nat 10)%nat.
  replace (List.length ls + List.length tl - Z.to_nat 10 - List.length ls)%nat
    with 0%nat by lia.
  reflexivity.
Qed.

(** X17. What the console writes to its memory file it reads back.  After
    [update_memory] with a one-line input and a reply of at most nine
    lines (neither holding a carriage return), [fetch_memory_context]
    ends with the two entries just written, whatever the file held
    before and whether it existed. *)
Theorem console_memory_read_back (m : App.memory)
  (user_input assistant_response : string) :
  contains "010" user_input = false ->
  contains "013" user_input = false ->
  contains "013" assistant_response = false ->
  (count_char "010" assistant_response <= 8)%nat ->
  exists before,
    App.fetch_memory_context
      (App.update_memory user_input assistant_response m)
    = (before ++ ("User: " ++ user_input ++ nl)
       ++ ("Assistant: " ++ assistant_response ++ nl))%string.
Proof.
  intros Hlf Hcr Hcr' Hcount.
  unfold App.update_memory, App.fetch_memory_context, App.readlines.
  set (content := match m with Some c => c | None => EmptyString end).
  set (l2 := ("Assistant: " ++ assistant_response ++ nl)%string).
  assert (Hshape : (("User: " ++ user_input ++ nl) ++ l2)%string
                   = String "U" ("ser: " ++ user_input ++ String "010" l2)%string).
  { simpl. f_equal. f_equal. f_equal. f_equal. f_equal. f_equal.
    now rewrite str_app_assoc. }
  rewrite Hshape.
  rewrite universal_newlines_app; [|reflexivity|].
  2:{ simpl. rewrite contains_app, Hcr. simpl.
      unfold l2, nl. rewrite contains_app.
      change (contains "013" "Assistant: ") with false. simpl.
      now rewrite Hcr'. }
  destruct (split_lines_prefix (App.universal_newlines false content) EmptyString)
    as (ls & tail & Hsplit).
  rewrite Hsplit.
  change (String "U" ("ser: " ++ user_input ++ String "010" l2)%string)
    with (("User: " ++ user_input) ++ String "010" l2)%string.
  rewrite split_lines_line by (rewrite contains_app; now rewrite Hlf).
  set (x := (tail ++ ("User: " ++ user_input) ++ String "010" EmptyString)%string).
  set (rest := App.split_lines EmptyString l2).
  assert (Hlen : (List.length (x :: rest) <= 10)%nat).
  { simpl. unfold rest, l2, nl.
    change ("Assistant: " ++ assistant_response ++ String "010" EmptyString)%string
      with (String "A" ("ssistant: " ++ assistant_response
                        ++ String "010" EmptyString)%string).
    replace (String "A" ("ssistant: " ++ assistant_response
                         ++ String "010" EmptyString)%string)
      with (("Assistant: " ++ assistant_response)
            ++ String "010" EmptyString)%string
      by (now rewrite str_app_assoc).
    rewrite split_lines_count. simpl. lia. }
  destruct (slice_last_ten_suffix ls (x :: rest) Hlen) as (k & ->).
  rewrite concat_lines_app. simpl.
  unfold rest. rewrite split_lines_concat. simpl.
  exists (App.concat_lines (skipn k ls) ++ tail)%string.
  unfold x, nl. rewrite !str_app_assoc. simpl. reflexivity.
Qed.

Section ConsoleFacts.

Variable S : services.
Variable address : string.

(** The console's retrieval query succeeds or fails whatever the
    collection holds, and what it returns renders the same. *)
Lemma console_query_rendering (p1 p2 : collection) (user_input : string)
  (limit : option Z) :
  match App.get_query_results S p1 address user_input limit,
        App.get_query_results S p2 address user_input limit with
  | Ok c1, Ok c2 => App.cursor_str c1 = App.cursor_str c2
  | Raise e1, Raise e2 => e1 = e2
  | _, _ => False
  end.
Proof.
  unfold App.get_query_results, aggregate.
  destruct (handler_generate_embedding S user_input) as [q|e]; simpl;
    [|reflexivity].
  destruct (search_fault S) as [e|]; simpl; [reflexivity|].
  destruct (_ <? 1); simpl; reflexivity.
Qed.

(** X18. The console never shows the listings to the model.  Its
    [get_query_results] returns the cursor, and the prompt renders the
    cursor object, not its documents: whatever the properties collection
    holds, [generate_answer] sends the same prompt, prints the same reply
    and writes the same memory. *)
Theorem console_prompt_ignores_listings (p1 p2 : collection)
  (user_input : string) (st : App.console) :
  App.generate_answer S p1 address user_input st
  = App.generate_answer S p2 address user_input st.
Proof.
  unfold App.generate_answer.
  pose proof (console_query_rendering p1 p2 user_input None) as H.
  destruct (App.get_query_results S p1 address user_input None) as [c1|e1];
    destruct (App.get_query_results S p2 address user_input None) as [c2|e2];
    try contradiction.
  - unfold App.build_prompt. now rewrite H.
  - now subst.
Qed.

Variable properties : collection.

(** X19. The word exit ends the console loop: what is typed after it is
    never read, so the loop ends the same way, with the same memory file
    and the same output, whatever follows. *)
Theorem console_stops_at_exit (before after : list string) (word : string)
  (st : App.console) :
  App.lower word = "exit" ->
  App.main S properties address (before ++ word :: after) st
  = App.main S properties address (before ++ [word]) st.
Proof.
  intros Hexit. revert st.
  induction before as [|x before IH]; intros st; simpl.
  - now rewrite Hexit.
  - destruct (String.eqb (App.lower x) "exit"); [reflexivity|].
    destruct (App.generate_answer S properties address x _) as [[u|e] st'];
      [apply IH|reflexivity].
Qed.

(** A failed exchange leaves no trace in the memory file, and a
    completed one adds its two entries and prints the reply. *)
Lemma console_exchange (user_input : string) (st : App.console) :
  match App.generate_answer S properties address user_input st with
  | (Raise _, st') => st' = st
  | (Ok _, st') =>
      exists reply,
        App.memory_file st'
        = App.update_memory user_input reply (App.memory_file st)
        /\ App.stdout st' = App.stdout st ++ [(reply ++ nl)%string]
  end.
Proof.
  unfold App.generate_answer.
  destruct (App.get_query_results S properties address user_input None);
    [|reflexivity].
  destruct (complete S _ user_input) as [reply|]; [|reflexivity].
  now exists reply.
Qed.

End ConsoleFacts.

(* ================================================================== *)
(** * The further statements on sample inputs *)
(* ================================================================== *)

Lemma fetch_chat_history_positive_limit_sample :
  exists older recent,
    fetch_chat_history three_turns "a@b.com" "s1" (Some 2) = Ok recent
    /\ three_entries = older ++ recent
    /\ Z.of_nat (List.length recent)
       = Z.min 2 (Z.of_nat (List.length three_entries)).
Proof.
  apply (fetch_chat_history_positive_limit three_turns "a@b.com" "s1" 2
           three_entries).
  - lia.
  - reflexivity.
Defined.

Lemma chat_empty_field_rejected_sample :
  truthy_opt (dict_get empty_question_request "question") = false
  /\ chat demo_services embedded_listings 7 empty_question_request three_turns
     = (Ok bad_request, three_turns).
Proof.
  split; [reflexivity|].
  apply (chat_empty_field_rejected demo_services embedded_listings 7
           empty_question_request three_turns).
  right. right. reflexivity.
Defined.

Lemma chat_identity_records_sample :
  identity_records three_turns = true
  /\ identity_records
       (snd (chat demo_services embedded_listings 7 hello_request three_turns))
     = true.
Proof.
  split; [reflexivity|].
  apply (chat_identity_records demo_services embedded_listings 7 hello_request
           three_turns _
           (fst (chat demo_services embedded_listings 7 hello_request three_turns))).
  - reflexivity.
  - apply surjective_pairing.
Defined.

Lemma chat_other_emails_untouched_sample :
  fetch_chat_history
    (snd (chat demo_services embedded_listings 7 hello_request two_users))
    "c@d.com" "s9" None
  = fetch_chat_history two_users "c@d.com" "s9" None.
Proof.
  apply (chat_other_emails_untouched demo_services embedded_listings 7
           hello_request two_users _
           (fst (chat demo_services embedded_listings 7 hello_request two_users))
           "a@b.com" "c@d.com" "s9" None).
  - reflexivity.
  - reflexivity.
  - apply surjective_pairing.
  - discriminate.
Defined.

Lemma chat_dotted_session_not_read_back_sample :
  contains "." "v1.2" = true
  /\ fetch_chat_history
       (snd (chat demo_services embedded_listings 7 dotted_request three_turns))
       "a@b.com" "v1.2" (Some 5)
     = fetch_chat_history three_turns "a@b.com" "v1.2" (Some 5).
Proof.
  split; [reflexivity|].
  apply (chat_dotted_session_not_read_back demo_services embedded_listings 7
           dotted_request three_turns _
           (fst (chat demo_services embedded_listings 7 dotted_request three_turns))
           "a@b.com" "v1.2" (Some 5)).
  - reflexivity.
  - reflexivity.
  - reflexivity.
  - apply surjective_pairing.
Defined.

Lemma saved_message_read_back_sample :
  exists h' older recent,
    save_message_to_mongo 7 "s1" "Hello" "Hi" "a@b.com" three_turns = Ok h'
    /\ fetch_chat_history h' "a@b.com" "s1" (Some 2)
       = Ok (recent ++ [entry "Hello" "Hi" 7])
    /\ three_entries = older ++ recent
    /\ Z.of_nat (List.length recent)
       = Z.min (2 - 1) (Z.of_nat (List.length three_entries)).
Proof.
  apply (saved_message_read_back three_turns 7 2 "s1" "Hello" "Hi" "a@b.com"
           three_entries).
  - reflexivity.
  - reflexivity.
  - reflexivity.
  - lia.
Defined.

Lemma generate_answer_last_ten_turns_sample :
  fst (generate_answer demo_services embedded_listings 7 "Hello" "a@b.com" "s1"
         thirteen_turns)
  = fst (generate_answer demo_services embedded_listings 7 "Hello" "a@b.com" "s1"
           ten_turns).
Proof.
  apply (generate_answer_last_ten_turns demo_services embedded_listings 7
           "Hello" "a@b.com" "s1" thirteen_turns ten_turns
           three_entries [] ten_entries); reflexivity.
Defined.

Lemma generate_and_save_embeddings_no_attribute_sample :
  generate_and_save_embeddings demo_services fresh_listings
  = (Raise (KeyError "embedding"), fresh_listings, [])
  /\ calls (snd (generate_and_save_embeddings demo_services fresh_listings)) = []
  /\ writes (snd (generate_and_save_embeddings demo_services fresh_listings)) = [].
Proof.
  apply (generate_and_save_embeddings_no_attribute demo_services fresh_listings).
  - discriminate.
  - intros d [<-|[<-|[]]]; eexists; reflexivity.
  - intros d [<-|[<-|[]]]; reflexivity.
Defined.

Lemma generate_and_save_embeddings_without_null_sample :
  exists c' t,
    generate_and_save_embeddings demo_services mixed_listings
    = (Ok "Embeddings generated and saved successfully where needed.", c', t)
    /\ calls t = []
    /\ Forall2
         (fun d d' =>
            if has_embedding d then d' = d
            else d' = set_field "embedding" VNaN d) mixed_listings c'.
Proof.
  apply (generate_and_save_embeddings_without_null demo_services mixed_listings
           (listing 1 "2BHK in Vijay Nagar" [1; 0]%Q)).
  - reflexivity.
  - left. reflexivity.
  - reflexivity.
  - intros d [<-|[<-|[]]]; [left|right]; reflexivity.
Defined.


Lemma generate_and_save_embeddings_second_run_sample :
  exists c' t t',
    generate_and_save_embeddings demo_services pending_listings
    = (Ok "Embeddings generated and saved successfully where needed.", c', t)
    /\ generate_and_save_embeddings demo_services c'
       = (Ok "Embeddings generated and saved successfully where needed.", c', t')
    /\ calls t' = [].
Proof.
  apply (generate_and_save_embeddings_second_run demo_services pending_listings).
  - discriminate.
  - reflexivity.
  - reflexivity.
  - intros d _ _. eexists. reflexivity.
Defined.


Lemma embedd_and_update_mongo_swallows_failure_sample :
  In fresh_row (rows (fetch_data fresh_listings))
  /\ exists e' t,
       embedd_and_update_mongo embedding_down (fetch_data fresh_listings)
         fresh_listings
       = (PrintedError "Error generating embeddings: " e', fresh_listings, t)
       /\ writes t = [].
Proof.
  assert (Hin : In fresh_row (rows (fetch_data fresh_listings))).
  { left. reflexivity. }
  split; [exact Hin|].
  exact (embedd_and_update_mongo_swallows_failure embedding_down fresh_listings
           fresh_row (UpstreamError "embedding endpoint unavailable")
           Hin eq_refl eq_refl).
Defined.

Lemma embed_collection_name_required_sample :
  embed_collection demo_services embed_nothing_request sample_db
  = (Responded (jsonify [("error", VStr "Collection name is required")] 400),
     sample_db, []).
Proof.
  apply (proj1 (embed_collection_name_required demo_services
                  embed_nothing_request sample_db)).
  reflexivity.
Defined.

Lemma embed_collection_unknown_name_sample :
  exists db',
    embed_collection demo_services embed_archive_request sample_db
    = (Responded
         (jsonify [("message", VStr "No documents found in the collection.")] 200),
       db', [])
    /\ forall n, db' n = sample_db n.
Proof.
  apply (embed_collection_unknown_name demo_services embed_archive_request
           sample_db "archive"); reflexivity.
Defined.

Lemma embed_collection_fresh_collection_sample :
  exists db',
    embed_collection demo_services embed_properties_request sample_db
    = (Unhandled (KeyError "embedding"), db', [])
    /\ forall n, db' n = sample_db n.
Proof.
  apply (embed_collection_fresh_collection demo_services embed_properties_request
           sample_db "properties").
  - reflexivity.
  - reflexivity.
  - discriminate.
  - intros d [<-|[<-|[]]]; eexists; reflexivity.
  - intros d [<-|[<-|[]]]; reflexivity.
Defined.

Lemma console_memory_read_back_sample :
  exists before,
    App.fetch_memory_context (App.update_memory "Hello" "Hi" None)
    = (before ++ ("User: " ++ "Hello" ++ nl) ++ ("Assistant: " ++ "Hi" ++ nl))%string.
Proof.
  apply (console_memory_read_back None "Hello" "Hi"); try reflexivity.
  simpl. lia.
Defined.

Lemma console_stops_at_exit_sample :
  App.lower "EXIT" = "exit"
  /\ App.main demo_services embedded_listings "0x7f"
       (["Hello"] ++ "EXIT" :: ["Any 2BHK?"]) new_console
     = App.main demo_services embedded_listings "0x7f"
         (["Hello"] ++ ["EXIT"]) new_console.
Proof.
  split; [reflexivity|].
  apply (console_stops_at_exit demo_services "0x7f" embedded_listings
           ["Hello"] ["Any 2BHK?"] "EXIT" new_console).
  reflexivity.
Defined.

(** The console on two lines: one exchange, then exit. *)
Lemma console_session_sample :
  App.main demo_services embedded_listings "0x7f" ["Hello"; "Exit"] new_console
  = (App.Exited,
     {| App.memory_file :=
          Some ("User: Hello" ++ nl ++ "Assistant: Hello, how can I assist you?"
                ++ nl)%string;
        App.stdout :=
          ["User: "; ("Hello, how can I assist you?" ++ nl)%string; "User: ";
           ("Exiting..." ++ nl)%string] |}).
Proof. reflexivity. Qed.
